(** * api-notebook: the Github gist persistence plugin and the middleware
      contract it is written against

    The development embeds the handlers of the gist persistence plugin
    ([changePlugin] apart, which only arms a timer) as computations over an
    explicit store: the payload object the handler mutates and the log of the
    operations it invokes ([next], [done], [App.middleware.trigger]).  The
    values that flow through the handlers are dynamically typed, so the
    embedding starts with a small model of JavaScript values and of the two
    host functions the plugin calls, [JSON.parse] and [JSON.stringify].

    Of the Gruntfile it embeds the proxy handler of the development server,
    up to the upstream request, and the construction of the browserify
    targets from the listing of the plugin directory. *)

From stdpp Require Import base gmap strings list.
From Stdlib Require Import ZArith Ascii String DecimalString.

#[local] Set Warnings "-register-all".

Open Scope string_scope.
Open Scope Z_scope.

(** ** JavaScript values *)

Module JS.

(** A number is kept as an exact decimal [m * 10^e]; the rounding of the
    host's binary64 numbers is not modelled.  Objects are association lists
    in insertion order with unique keys.  An [Error] instance is kept apart
    from plain objects: it carries a constructor name and a message. *)
Inductive value : Type :=
  | VUndefined
  | VNull
  | VBool (b : bool)
  | VNum (m e : Z)
  | VStr (s : string)
  | VObj (props : list (string * value))
  | VArr (elems : list value)
  | VError (name message : string).

Definition VInt (n : Z) : value := VNum n 0.

(** The outcome of evaluating an expression: a value or a thrown exception. *)
Inductive result (A : Type) : Type :=
  | Ok (a : A)
  | Throw (exn : value).
Arguments Ok {A} a.
Arguments Throw {A} exn.

(** ToBoolean. *)
Definition truthy (v : value) : bool :=
  match v with
  | VUndefined | VNull => false
  | VBool b => b
  | VNum m _ => negb (m =? 0)
  | VStr s => negb (String.eqb s "")
  | VObj _ | VArr _ | VError _ _ => true
  end.

(** Numbers: canonical form has [e <= 0] and, below zero, a mantissa that
    does not end in the digit 0. *)
Fixpoint strip_zeros (fuel : nat) (m e : Z) : Z * Z :=
  match fuel with
  | O => (m, e)
  | S f =>
      if (e <? 0) && (m mod 10 =? 0)
      then strip_zeros f (m / 10) (e + 1)
      else (m, e)
  end.

Definition normalize (m e : Z) : Z * Z :=
  if m =? 0 then (0, 0)
  else if 0 <=? e then (m * 10 ^ e, 0)
  else strip_zeros (Z.to_nat (- e)) m e.

Definition num_eqb (m1 e1 m2 e2 : Z) : bool :=
  let lo := Z.min e1 e2 in
  m1 * 10 ^ (e1 - lo) =? m2 * 10 ^ (e2 - lo).

(** The operators [===] and [!==].  Objects, arrays and errors are compared
    by reference in the host; the model has no references and answers
    [false] for them, which is the answer for two distinct objects.  The
    plugin only compares against the primitives [false], [200] and [201]. *)
Definition strict_eq (a b : value) : bool :=
  match a, b with
  | VUndefined, VUndefined => true
  | VNull, VNull => true
  | VBool x, VBool y => Bool.eqb x y
  | VNum m1 e1, VNum m2 e2 => num_eqb m1 e1 m2 e2
  | VStr x, VStr y => String.eqb x y
  | _, _ => false
  end.

Definition strict_ne (a b : value) : bool := negb (strict_eq a b).

(** Number to string: the plain decimal expansion (the host switches to
    exponent notation from 1e21 and below 1e-6; that is not modelled). *)
Definition string_of_Z (n : Z) : string := NilZero.string_of_int (Z.to_int n).

Fixpoint zeros (n : nat) : string :=
  match n with O => "" | S k => String "0" (zeros k) end.

Definition string_of_num (m e : Z) : string :=
  let '(m, e) := normalize m e in
  if e =? 0 then string_of_Z m
  else
    let p := 10 ^ (- e) in
    let a := Z.abs m in
    let frac := string_of_Z (a mod p) in
    (if m <? 0 then "-" else "") +:+ string_of_Z (a / p) +:+ "." +:+
    zeros (Z.to_nat (- e) - String.length frac) +:+ frac.

Fixpoint join (sep : string) (l : list string) : string :=
  match l with
  | [] => ""
  | [x] => x
  | x :: r => x +:+ sep +:+ join sep r
  end.

(** ToString, through the default [toString] of each kind of object. *)
Fixpoint to_string (v : value) : string :=
  match v with
  | VUndefined => "undefined"
  | VNull => "null"
  | VBool true => "true"
  | VBool false => "false"
  | VNum m e => string_of_num m e
  | VStr s => s
  | VObj _ => "[object Object]"
  | VArr l =>
      join "," ((fix elems (l : list value) : list string :=
                   match l with
                   | [] => []
                   | (VUndefined | VNull) :: r => "" :: elems r
                   | x :: r => to_string x :: elems r
                   end) l)
  | VError name message =>
      if String.eqb message "" then name else name +:+ ": " +:+ message
  end.

(** The operator [+] when one operand is a string, which is so at every use
    in the plugin: both operands are converted and concatenated. *)
Definition concat (a b : value) : value := VStr (to_string a +:+ to_string b).

Fixpoint lookup_prop (k : string) (props : list (string * value)) : value :=
  match props with
  | [] => VUndefined
  | (k', v) :: r => if String.eqb k k' then v else lookup_prop k r
  end.

Fixpoint set_prop (k : string) (v : value) (props : list (string * value))
  : list (string * value) :=
  match props with
  | [] => [(k, v)]
  | (k', v') :: r =>
      if String.eqb k k' then (k, v) :: r else (k', v') :: set_prop k v r
  end.

Definition TypeError (message : string) : value := VError "TypeError" message.
Definition SyntaxError (message : string) : value := VError "SyntaxError" message.
Definition Error (message : string) : value := VError "Error" message.

(** Property read [v.k] / [v[k]].  Reading a property of [undefined] or
    [null] throws a TypeError.  An object answers with its own properties
    and an error with its name and message; none of the names the plugin
    reads is a property of a primitive or of an array. *)
Definition get (v : value) (k : string) : result value :=
  match v with
  | VUndefined | VNull =>
      Throw (TypeError ("Cannot read property '" +:+ k +:+ "' of " +:+ to_string v))
  | VObj props => Ok (lookup_prop k props)
  | VError name message =>
      Ok (if String.eqb k "name" then VStr name
          else if String.eqb k "message" then VStr message
          else VUndefined)
  | VBool _ | VNum _ _ | VStr _ | VArr _ => Ok VUndefined
  end.

End JS.

(** ** The host's JSON object *)

Module JSON.
Import JS.

(** *** JSON.parse: a recursive-descent reader of the JSON grammar *)

Definition code (c : ascii) : Z := Z.of_N (N_of_ascii c).
Definition char_of (n : Z) : ascii := ascii_of_N (Z.to_N n).

Definition is_ws (c : ascii) : bool :=
  let n := code c in (n =? 32) || (n =? 9) || (n =? 10) || (n =? 13).

Fixpoint skip_ws (s : string) : string :=
  match s with
  | String c r => if is_ws c then skip_ws r else s
  | EmptyString => s
  end.

Definition digit (c : ascii) : option Z :=
  let n := code c in
  if (48 <=? n) && (n <=? 57) then Some (n - 48) else None.

Definition hex_digit (c : ascii) : option Z :=
  let n := code c in
  if (48 <=? n) && (n <=? 57) then Some (n - 48)
  else if (65 <=? n) && (n <=? 70) then Some (n - 55)
  else if (97 <=? n) && (n <=? 102) then Some (n - 87)
  else None.

(** Reads the digits at the head of [s] onto the accumulator [acc]; returns
    the number read, how many digits it had and the rest of the input. *)
Fixpoint digits (s : string) (acc : Z) (count : nat) : Z * nat * string :=
  match s with
  | String c r =>
      match digit c with
      | Some d => digits r (acc * 10 + d) (S count)
      | None => (acc, count, s)
      end
  | EmptyString => (acc, count, s)
  end.

Definition parse_exponent (s : string) : option (Z * string) :=
  match s with
  | String c r =>
      if (code c =? 101) || (code c =? 69) then
        let '(neg, r) :=
          match r with
          | String "-" r' => (true, r')
          | String "+" r' => (false, r')
          | _ => (false, r)
          end in
        match digits r 0 O with
        | (_, O, _) => None
        | (x, _, rest) => Some (if neg : bool then - x else x, rest)
        end
      else Some (0, s)
  | EmptyString => Some (0, s)
  end.

Definition parse_fraction (s : string) (int : Z) : option (Z * nat * string) :=
  match s with
  | String "." r =>
      match digits r int O with
      | (_, O, _) => None
      | res => Some res
      end
  | _ => Some (int, O, s)
  end.

(** A number literal: an optional minus sign, an integer part without
    leading zeros, an optional fraction and an optional exponent. *)
Definition parse_number (s : string) : option (value * string) :=
  let '(neg, s) :=
    match s with String "-" r => (true, r) | _ => (false, s) end in
  let int :=
    match s with
    | String "0" r => Some (0, r)
    | _ => match digits s 0 O with
           | (_, O, _) => None
           | (n, _, r) => Some (n, r)
           end
    end in
  match int with
  | None => None
  | Some (n, r) =>
      match parse_fraction r n with
      | None => None
      | Some (m, places, r) =>
          match parse_exponent r with
          | None => None
          | Some (x, r) =>
              let '(m, e) := normalize (if neg : bool then - m else m)
                                       (x - Z.of_nat places) in
              Some (VNum m e, r)
          end
      end
  end.

(** Strings of the model are byte strings; a [\uXXXX] escape is stored as the
    UTF-8 encoding of its code unit. *)
Definition utf8 (n : Z) (rest : string) : string :=
  if n <? 128 then String (char_of n) rest
  else if n <? 2048 then
    String (char_of (192 + n / 64)) (String (char_of (128 + n mod 64)) rest)
  else
    String (char_of (224 + n / 4096))
      (String (char_of (128 + (n / 64) mod 64))
         (String (char_of (128 + n mod 64)) rest)).

Definition unescape (c : ascii) : option ascii :=
  let n := code c in
  if (n =? 34) || (n =? 92) || (n =? 47) then Some c
  else match c with
       | "b"%char => Some (char_of 8)
       | "f"%char => Some (char_of 12)
       | "n"%char => Some (char_of 10)
       | "r"%char => Some (char_of 13)
       | "t"%char => Some (char_of 9)
       | _ => None
       end.

Definition quote : ascii := char_of 34.

(** The characters of a string literal after its opening quote. *)
Fixpoint parse_chars (s : string) : option (string * string) :=
  match s with
  | EmptyString => None
  | String "\" (String "u" (String a (String b (String c (String d r))))) =>
      match hex_digit a, hex_digit b, hex_digit c, hex_digit d, parse_chars r with
      | Some a, Some b, Some c, Some d, Some (str, rest) =>
          Some (utf8 (((a * 16 + b) * 16 + c) * 16 + d) str, rest)
      | _, _, _, _, _ => None
      end
  | String "\" (String e r) =>
      match unescape e, parse_chars r with
      | Some c, Some (str, rest) => Some (String c str, rest)
      | _, _ => None
      end
  | String "\" EmptyString => None
  | String c r =>
      if code c =? 34 then Some ("", r)
      else if code c <? 32 then None
      else match parse_chars r with
           | Some (str, rest) => Some (String c str, rest)
           | None => None
           end
  end.

Definition parse_literal (word : string) (v : value) (s : string)
  : option (value * string) :=
  if String.prefix word s
  then Some (v, String.substring (String.length word)
                  (String.length s - String.length word) s)
  else None.

Fixpoint parse_value (fuel : nat) (s : string) : option (value * string) :=
  match fuel with
  | O => None
  | S fuel =>
      match skip_ws s with
      | String "{" r =>
          match skip_ws r with
          | String "}" r => Some (VObj [], r)
          | r => parse_members fuel r []
          end
      | String "[" r =>
          match skip_ws r with
          | String "]" r => Some (VArr [], r)
          | r => parse_elements fuel r []
          end
      | String "t" _ as s => parse_literal "true" (VBool true) s
      | String "f" _ as s => parse_literal "false" (VBool false) s
      | String "n" _ as s => parse_literal "null" VNull s
      | String c r as s =>
          if code c =? 34 then
            match parse_chars r with
            | Some (str, rest) => Some (VStr str, rest)
            | None => None
            end
          else parse_number s
      | EmptyString => None
      end
  end
with parse_members (fuel : nat) (s : string) (acc : list (string * value))
  : option (value * string) :=
  match fuel with
  | O => None
  | S fuel =>
      match skip_ws s with
      | String c r =>
          match (if code c =? 34 then parse_chars r else None) with
          | Some (key, r) =>
              match skip_ws r with
              | String ":" r =>
                  match parse_value fuel r with
                  | Some (v, r) =>
                      let acc := set_prop key v acc in
                      match skip_ws r with
                      | String "," r => parse_members fuel r acc
                      | String "}" r => Some (VObj acc, r)
                      | _ => None
                      end
                  | None => None
                  end
              | _ => None
              end
          | None => None
          end
      | EmptyString => None
      end
  end
with parse_elements (fuel : nat) (s : string) (acc : list value)
  : option (value * string) :=
  match fuel with
  | O => None
  | S fuel =>
      match parse_value fuel s with
      | Some (v, r) =>
          match skip_ws r with
          | String "," r => parse_elements fuel r (acc ++ [v])%list
          | String "]" r => Some (VArr (acc ++ [v])%list, r)
          | _ => None
          end
      | None => None
      end
  end.

Definition parse_text (text : string) : result value :=
  match parse_value (S (String.length text)) text with
  | Some (v, rest) =>
      match skip_ws rest with
      | EmptyString => Ok v
      | _ => Throw (SyntaxError "Unexpected token in JSON")
      end
  | None => Throw (SyntaxError "Unexpected token in JSON")
  end.

(** [JSON.parse(v)]: the argument is converted to a string first. *)
Definition parse (v : value) : result value := parse_text (to_string v).

(** *** JSON.stringify *)

Definition hex (n : Z) : ascii := char_of (if n <? 10 then 48 + n else 87 + n).

Definition escape (c : ascii) (rest : string) : string :=
  let n := code c in
  if (n =? 34) || (n =? 92) then String "\" (String c rest)
  else if n =? 8 then "\b" +:+ rest
  else if n =? 9 then "\t" +:+ rest
  else if n =? 10 then "\n" +:+ rest
  else if n =? 12 then "\f" +:+ rest
  else if n =? 13 then "\r" +:+ rest
  else if n <? 32 then "\u00" +:+ String (hex (n / 16)) (String (hex (n mod 16)) rest)
  else String c rest.

Fixpoint escaped (s : string) : string :=
  match s with
  | EmptyString => EmptyString
  | String c r => escape c (escaped r)
  end.

Definition quoted (s : string) : string :=
  String quote (escaped s +:+ String quote EmptyString).

(** [None] stands for the result [undefined]: a property holding it is left
    out of an object and an array element holding it is written [null].  An
    error instance has no enumerable property of its own. *)
Fixpoint serialize (v : value) : option string :=
  match v with
  | VUndefined => None
  | VNull => Some "null"
  | VBool true => Some "true"
  | VBool false => Some "false"
  | VNum m e => Some (string_of_num m e)
  | VStr s => Some (quoted s)
  | VArr l =>
      Some ("[" +:+
            join "," ((fix elems (l : list value) : list string :=
                         match l with
                         | [] => []
                         | x :: r =>
                             match serialize x with
                             | Some s => s
                             | None => "null"
                             end :: elems r
                         end) l) +:+ "]")
  | VObj props =>
      Some ("{" +:+
            join "," ((fix members (l : list (string * value)) : list string :=
                         match l with
                         | [] => []
                         | (k, x) :: r =>
                             match serialize x with
                             | Some s => (quoted k +:+ ":" +:+ s) :: members r
                             | None => members r
                             end
                         end) props) +:+ "}")
  | VError _ _ => Some "{}"
  end.

Definition stringify (v : value) : value :=
  match serialize v with
  | Some s => VStr s
  | None => VUndefined
  end.

End JSON.

(** ** The gist persistence plugin *)

Module Gist.
Import JS.

Definition OAUTH_KEY : string := "github-oauth".
Definition AUTH_URL : string := "https://github.com/login/oauth/authorize".
Definition TOKEN_URL : string := "https://github.com/login/oauth/access_token".
Definition VALID_URL : string := "https://api.github.com/user".

(** The payload of the persistence channels.  [isAuthenticated] holds what
    the call [data.isAuthenticated()] returns. *)
Record payload : Type := {
  id : value;
  ownerId : value;
  contents : value;
  isAuthenticated : value
}.

(** What a handler does that its caller can observe, in order. *)
Inductive event : Type :=
  | Trigger (channel : string) (request : value)
  | Next (args : list value)
  | Done (args : list value)
  | Uncaught (exn : value).

(** What surrounds the plugin: the browser's [navigator.onLine], the build's
    [process.env.GITHUB_CLIENT_ID], and the channels the plugin triggers but
    does not implement.  [respond channel request] is the pair [(err, result)]
    the completion of that nested trigger is called with, or [None] when it is
    never called. *)
Record environment : Type := {
  navigator_onLine : value;
  CLIENT_ID : value;
  respond : string -> value -> option (value * value)
}.

Record store : Type := { data : payload; log : list event }.

(** Computations that read and write the store and may throw. *)
Definition action (A : Type) : Type := store -> result A * store.

Definition ret {A} (a : A) : action A := fun s => (Ok a, s).

Definition bind {A B} (c : action A) (k : A -> action B) : action B :=
  fun s =>
    match c s with
    | (Ok a, s') => k a s'
    | (Throw e, s') => (Throw e, s')
    end.

Notation "x <- c ;; k" := (bind c (fun x => k))
  (at level 100, c at next level, right associativity).
Notation "c ;;; k" := (bind c (fun _ => k))
  (at level 100, right associativity).

Definition lift {A} (r : result A) : action A := fun s => (r, s).

(** [try { body } catch (e) { ... }] with the exception handed to the
    continuation; what [body] wrote before it threw stays written. *)
Definition attempt {A} (body : action A) : action (result A) :=
  fun s => let '(r, s') := body s in (Ok r, s').

Definition read (v : value) (k : string) : action value := lift (get v k).

Definition emit (e : event) : action value :=
  fun s => (Ok VUndefined, {| data := data s; log := (log s ++ [e])%list |}).

Definition field (f : payload -> value) : action value :=
  fun s => (Ok (f (data s)), s).

Definition update (f : payload -> payload) : action value :=
  fun s => (Ok VUndefined, {| data := f (data s); log := log s |}).

Definition set_id (v : value) : action value :=
  update (fun d => {| id := v; ownerId := ownerId d; contents := contents d;
                      isAuthenticated := isAuthenticated d |}).
Definition set_ownerId (v : value) : action value :=
  update (fun d => {| id := id d; ownerId := v; contents := contents d;
                      isAuthenticated := isAuthenticated d |}).
Definition set_contents (v : value) : action value :=
  update (fun d => {| id := id d; ownerId := ownerId d; contents := v;
                      isAuthenticated := isAuthenticated d |}).

(** The operators [!], [||] and [&&]; the right operand is evaluated only
    when the left one does not decide. *)
Definition not (v : value) : value := VBool (negb (truthy v)).

Definition or (a b : action value) : action value :=
  x <- a ;; if truthy x then ret x else b.

Definition and (a b : action value) : action value :=
  x <- a ;; if truthy x then b else ret x.

(** The continue and terminate operations a handler is called with. *)
Definition operation : Type := list value -> action value.

Section Plugin.

Variable env : environment.

(** [App.middleware.trigger(channel, request, callback)].  The channel's
    handlers are not the plugin's: the completion arguments come from the
    environment. *)
Definition trigger (channel : string) (request : value)
    (callback : value -> value -> action value) : action value :=
  emit (Trigger channel request) ;;;
  match respond env channel request with
  | Some (err, res) => callback err res
  | None => ret VUndefined
  end.

Definition authenticatedUserId (done : operation) : action value :=
  trigger "authenticate:oauth2:validate"
    (VObj [("validateUrl", VStr VALID_URL);
           ("authorizationUrl", VStr AUTH_URL)])
    (fun err auth =>
       if truthy err || negb (truthy auth) then done [err]
       else
         r <- attempt (xhr <- read auth "xhr" ;;
                       text <- read xhr "responseText" ;;
                       lift (JSON.parse text)) ;;
         match r with
         | Throw e => done [e]
         | Ok content =>
             userId <- read content "id" ;;
             login <- read content "login" ;;
             done [VNull;
                   VObj [("userId", userId);
                         ("userTitle", concat login (VStr " @ Github"))]]
         end).

Definition authenticatePlugin (next done : operation) : action value :=
  trigger "authenticate:oauth2"
    (VObj [("scopes", VArr [VStr "gist"]);
           ("clientId", CLIENT_ID env);
           ("clientSecret", VStr "");
           ("validateUrl", VStr VALID_URL);
           ("accessTokenUrl", VStr TOKEN_URL);
           ("authorizationUrl", VStr AUTH_URL)])
    (fun err auth =>
       if truthy err then next [err]
       else authenticatedUserId done).

Definition authenticatedPlugin (next done : operation) : action value :=
  authenticatedUserId done.

Definition loadPlugin (next done : operation) : action value :=
  data_id <- field id ;;
  if negb (truthy data_id) then next []
  else
    trigger "ajax"
      (VObj [("url", concat (VStr "https://api.github.com/gists/") data_id);
             ("method", VStr "GET")])
      (fun err xhr =>
         r <- attempt (text <- read xhr "responseText" ;;
                       lift (JSON.parse text)) ;;
         match r with
         | Throw e => next [e]
         | Ok content =>
             malformed <-
               or (ret (not content))
                  (or (files <- read content "files" ;; ret (not files))
                      (files <- read content "files" ;;
                       notebook <- read files "notebook.md" ;;
                       ret (not notebook))) ;;
             if truthy malformed
             then next [Error "Unexpected JSON response"]
             else
               content_id <- read content "id" ;;
               set_id content_id ;;;
               owner <- and (read content "user")
                            (user <- read content "user" ;; read user "id") ;;
               set_ownerId owner ;;;
               files <- read content "files" ;;
               notebook <- read files "notebook.md" ;;
               text <- read notebook "content" ;;
               set_contents text ;;;
               done []
         end).

Definition savePlugin (next done : operation) : action value :=
  authenticated <- field isAuthenticated ;;
  if negb (truthy authenticated) then next []
  else if strict_eq (navigator_onLine env) (VBool false)
  then next [Error "No internet available"]
  else
    data_id <- field id ;;
    data_contents <- field contents ;;
    trigger "ajax:oauth2"
      (VObj [("url", concat (VStr "https://api.github.com/gists")
                       (if truthy data_id then concat (VStr "/") data_id
                        else VStr ""));
             ("method", if truthy data_id then VStr "PATCH" else VStr "POST");
             ("data", JSON.stringify
                        (VObj [("files",
                                VObj [("notebook.md",
                                       VObj [("content", data_contents)])])]));
             ("oauth2", VObj [("authorizationUrl", VStr AUTH_URL)])])
      (fun err xhr =>
         if truthy err then next [err]
         else
           status <- read xhr "status" ;;
           if strict_ne status (VInt 200) && strict_ne status (VInt 201)
           then next [Error "Request failed"]
           else
             r <- attempt (text <- read xhr "responseText" ;;
                           content <- lift (JSON.parse text) ;;
                           content_id <- read content "id" ;;
                           set_id content_id ;;;
                           owner <- and (read content "user")
                                        (user <- read content "user" ;;
                                         read user "id") ;;
                           set_ownerId owner) ;;
             match r with
             | Throw e => next [e]
             | Ok _ => next []
             end).

(** A handler is run on a payload with the two operations recording their
    calls; an exception nobody catches ends the run. *)
Definition run (handler : operation -> operation -> action value)
    (d : payload) : payload * list event :=
  match handler (fun args => emit (Next args)) (fun args => emit (Done args))
          {| data := d; log := [] |} with
  | (Ok _, s) => (data s, log s)
  | (Throw e, s) => (data s, (log s ++ [Uncaught e])%list)
  end.

End Plugin.

End Gist.

(** ** The dispatcher *)

Module Middleware.
Import JS.

(** Modelled from the spec: what a handler does with the two operations it
    is given.  The dispatcher ([App.middleware]) is not among the sources;
    its contract (section 4.2 of the specification) has a handler invoke
    exactly one of continue and terminate, once, and names the handler that
    invokes neither as one that stalls the trigger.  [None] as a failure
    value stands for null or an absent argument. *)
Inductive call : Type :=
  | Continue (err : option value)
  | Terminate (err : option value) (result : value)
  | Stall.

(** Modelled from the spec: a handler of the absent dispatcher, invoked with
    the payload, may change it in place and then makes its call. *)
Definition handler : Type := value -> value * call.

(** Modelled from the spec: the events of one run of the absent
    [trigger]: the handler at a cursor position is invoked, or the
    completion function is called with a failure-or-null and a result. *)
Inductive event : Type :=
  | Invoked (cursor : nat)
  | Completion (err : option value) (result : value).

(** Modelled from the spec: the channel registry of the absent dispatcher,
    an ordered list of handlers per channel name; [register] appends. *)
Definition handlers_of (registry : gmap string (list handler))
    (channel : string) : list handler :=
  default [] (registry !! channel).

(** Modelled from the spec: [register(channel, handler)] of the absent
    dispatcher appends the handler to the channel's list. *)
Definition register (channel : string) (h : handler)
    (registry : gmap string (list handler)) : gmap string (list handler) :=
  <[channel := (handlers_of registry channel ++ [h])%list]> registry.

(** Modelled from the spec: step 3 of the absent dispatcher's algorithm.
    [snapshot] is the part of the handler list from the cursor on.  With the
    list exhausted the completion gets the last recorded error and the
    payload; [continue(err)] records [err] and moves to the next handler;
    [terminate(err, result)] calls the completion and stops; a handler that
    makes no call leaves the trigger without a completion. *)
Fixpoint walk (snapshot : list handler) (cursor : nat)
    (lastError : option value) (payload : value) : list event :=
  match snapshot with
  | [] => [Completion lastError payload]
  | h :: rest =>
      let '(payload, c) := h payload in
      Invoked cursor ::
      match c with
      | Continue err => walk rest (S cursor) err payload
      | Terminate err result => [Completion err result]
      | Stall => []
      end
  end.

(** Modelled from the spec: [trigger(channel, payload, completion)] of the
    absent dispatcher: snapshot the channel's handlers, start with the cursor
    at 0 and no error recorded. *)
Definition trigger (registry : gmap string (list handler))
    (channel : string) (payload : value) : list event :=
  walk (handlers_of registry channel) 0 None payload.

Definition is_completion (e : event) : bool :=
  match e with Completion _ _ => true | Invoked _ => false end.

(** How often the completion function was called. *)
Definition completions (trace : list event) : nat :=
  List.length (List.filter is_completion trace).

(** A handler that keeps the contract: whatever the payload, it invokes one
    of the two operations. *)
Definition responsive (h : handler) : Prop :=
  forall payload, snd (h payload) <> Stall.

End Middleware.

(** ** The development server of the Gruntfile *)

Module Server.
Import JS.

(** In this module a string is the sequence of its code units, each below
    256. *)

(** [s.substr(start, length)] and [s.substr(start)]. *)
Definition substr (start length : nat) (s : string) : string :=
  String.substring start length s.

Fixpoint substr_from (start : nat) (s : string) : string :=
  match start, s with
  | O, _ => s
  | S n, String _ r => substr_from n r
  | S _, EmptyString => EmptyString
  end.

(** [s.indexOf(c)] for a one-character needle: the position of its first
    occurrence, or -1. *)
Fixpoint indexOf (c : ascii) (s : string) : Z :=
  match s with
  | EmptyString => -1
  | String x r =>
      if Ascii.eqb x c then 0
      else let i := indexOf c r in if i <? 0 then -1 else i + 1
  end.

(** The regular expressions of the Gruntfile are sequences of literal
    characters, the wildcard [.] and optional characters [c?]. *)
Inductive atom : Type :=
  | Char (c : ascii)
  | Any
  | Optional (c : ascii).

Fixpoint literal (s : string) : list atom :=
  match s with
  | EmptyString => []
  | String c r => Char c :: literal r
  end.

(** The wildcard matches every character that is not a line terminator. *)
Definition line_terminator (c : ascii) : bool :=
  (JSON.code c =? 10) || (JSON.code c =? 13).

(** [match_at re final s]: the expression matches at the head of [s], an
    optional character being tried first, with a rest that satisfies [final];
    the answer is that rest. *)
Fixpoint match_at (re : list atom) (final : string -> bool) (s : string)
  : option string :=
  match re with
  | [] => if final s then Some s else None
  | Char c :: re' =>
      match s with
      | String x r => if Ascii.eqb x c then match_at re' final r else None
      | EmptyString => None
      end
  | Any :: re' =>
      match s with
      | String x r => if line_terminator x then None else match_at re' final r
      | EmptyString => None
      end
  | Optional c :: re' =>
      match (match s with
             | String x r => if Ascii.eqb x c then match_at re' final r else None
             | EmptyString => None
             end) with
      | Some rest => Some rest
      | None => match_at re' final s
      end
  end.

(** The leftmost match: the characters before it and the rest after it. *)
Fixpoint search (re : list atom) (final : string -> bool) (s : string)
  : option (string * string) :=
  match match_at re final s with
  | Some rest => Some (EmptyString, rest)
  | None =>
      match s with
      | EmptyString => None
      | String x r =>
          match search re final r with
          | Some (before, rest) => Some (String x before, rest)
          | None => None
          end
      end
  end.

Definition anywhere (s : string) : bool := true.
Definition at_end (s : string) : bool := String.eqb s EmptyString.

(** [/^https?:\/\/github.com\/login\/oauth\/access_token/] *)
Definition access_token_url : list atom :=
  (literal "http" ++ [Optional "s"] ++ literal "://github" ++ [Any]
   ++ literal "com/login/oauth/access_token")%list.

Definition test_access_token_url (url : string) : bool :=
  match match_at access_token_url anywhere url with
  | Some _ => true
  | None => false
  end.

(** [encodeURIComponent]: the unreserved characters stand for themselves,
    every other code unit is written as the escaped bytes of its UTF-8
    encoding. *)
Definition unreserved (c : ascii) : bool :=
  let n := JSON.code c in
  ((65 <=? n) && (n <=? 90)) || ((97 <=? n) && (n <=? 122))
  || ((48 <=? n) && (n <=? 57))
  || (n =? 45) || (n =? 95) || (n =? 46) || (n =? 33) || (n =? 126)
  || (n =? 42) || (n =? 39) || (n =? 40) || (n =? 41).

Definition HEX (n : Z) : ascii :=
  JSON.char_of (if n <? 10 then 48 + n else 55 + n).

Definition percent (byte : Z) (rest : string) : string :=
  String "%" (String (HEX (byte / 16)) (String (HEX (byte mod 16)) rest)).

Fixpoint encode (s : string) : string :=
  match s with
  | EmptyString => EmptyString
  | String c r =>
      let n := JSON.code c in
      if unreserved c then String c (encode r)
      else if n <? 128 then percent n (encode r)
      else percent (192 + n / 64) (percent (128 + n mod 64) (encode r))
  end.

Definition encodeURIComponent (v : value) : string := encode (to_string v).

(** What the third handler of [serverMiddleware] does with a request: it
    calls [next()], or it requests a URL upstream and pipes the answer. *)
Inductive routed : Type :=
  | PassOn
  | Forward (url : string).

(** The third handler of [serverMiddleware], up to the upstream request.
    [GITHUB_CLIENT_SECRET] is [process.env.GITHUB_CLIENT_SECRET]. *)
Definition proxy (GITHUB_CLIENT_SECRET : value) (req_url : string) : routed :=
  if negb (String.eqb (substr 0 7 req_url) "/proxy/") then PassOn
  else
    let url := substr_from 7 req_url in
    let url :=
      if test_access_token_url url
      then ((url +:+ (if indexOf "?" url >? -1 then "&" else "?"))
            +:+ "client_secret=")
           +:+ encodeURIComponent GITHUB_CLIENT_SECRET
      else url in
    Forward url.

End Server.

(** ** The build configuration of the Gruntfile *)

Module Build.
Import JS Server.

Section Config.

(** [__dirname], [process.env.NODE_ENV] and [grunt.util._.camelize], which
    the Gruntfile takes from its host. *)
Variable dirname : string.
Variable NODE_ENV : value.
Variable camelize : string -> string.

Definition DEV : bool := strict_ne NODE_ENV (VStr "production").
Definition PLUGIN_DIR : string := dirname +:+ "/public/scripts/plugins".
Definition BUILD_DIR : string := dirname +:+ "/build".
Definition TEST_DIR : string := BUILD_DIR +:+ "/test".
Definition FIXTURE_DIR : string := TEST_DIR +:+ "/fixtures".

(** [/\.js$/], its [test] and [fileName.replace(jsRegex, '')]. *)
Definition jsRegex : list atom := literal ".js".

Definition jsRegex_test (fileName : string) : bool :=
  match search jsRegex at_end fileName with
  | Some _ => true
  | None => false
  end.

Definition jsRegex_remove (fileName : string) : string :=
  match search jsRegex at_end fileName with
  | Some (before, rest) => before +:+ rest
  | None => fileName
  end.

(** The transform list after the conditional [push]. *)
Definition browserifyTransform : value :=
  VArr (VStr "envify" :: (if DEV then [] else [VStr "uglifyify"])).

(** The body of the [forEach] over the plugin directory. *)
Definition plugin (browserifyPlugins : list (string * value))
    (fileName : string) : list (string * value) :=
  if negb (jsRegex_test fileName) then browserifyPlugins
  else
    let name := camelize (jsRegex_remove fileName) +:+ "Plugin" in
    set_prop name
      (VObj [("src", VStr ((PLUGIN_DIR +:+ "/") +:+ fileName));
             ("dest", VStr ("build/plugins/" +:+ fileName));
             ("options", VObj [("debug", VBool DEV);
                               ("transform", browserifyTransform);
                               ("standalone", VStr name)])])
      browserifyPlugins.

(** [browserifyPlugins] once the directory listing [files] has been walked. *)
Definition browserifyPlugins (files : list string) : list (string * value) :=
  fold_left plugin files [].

(** [_.extend(obj, source)]: every property of [source] is assigned to
    [obj]. *)
Definition extend (obj source : list (string * value))
  : list (string * value) :=
  fold_left (fun o p => set_prop (fst p) (snd p) o) source obj.

Definition application : value :=
  VObj [("src", VStr "public/scripts/index.js");
        ("dest", VStr "build/scripts/bundle.js");
        ("options", VObj [("debug", VBool DEV);
                          ("transform", browserifyTransform)])].

Definition embed : value :=
  VObj [("src", VStr "public/scripts/embed.js");
        ("dest", VStr "build/scripts/embed.js");
        ("options", VObj [("debug", VBool DEV);
                          ("transform", browserifyTransform);
                          ("standalone", VStr "Notebook")])].

Definition test : value :=
  VObj [("src", VArr [VStr "test/scripts/common.js";
                      VStr "test/scripts/helpers.js"]);
        ("dest", VStr (TEST_DIR +:+ "/scripts/bundle.js"));
        ("options", VObj [("debug", VBool DEV);
                          ("transform", browserifyTransform)])].

(** The [browserify] entry of the configuration. *)
Definition browserify (files : list string) : list (string * value) :=
  extend [("application", application); ("embed", embed); ("test", test)]
         (browserifyPlugins files).

End Config.

End Build.

(** ** Vocabulary of the statements *)

Import JS Gist.

(** Response bodies are written with apostrophes for the quotation marks of
    JSON; [dq] puts the quotation marks back. *)
Fixpoint dq (s : string) : string :=
  match s with
  | EmptyString => EmptyString
  | String c r => String (if JSON.code c =? 39 then JSON.quote else c) (dq r)
  end.

Definition is_next (e : Gist.event) : bool :=
  match e with Next _ => true | _ => false end.

Definition is_done (e : Gist.event) : bool :=
  match e with Done _ => true | _ => false end.

(** The handler declined: the one thing it did was to call the continue
    operation, and it handed it no error (no argument at all, or a first
    argument that is null or undefined). *)
Definition declined (trace : list Gist.event) : Prop :=
  exists args, trace = [Next args] /\ truthy (hd VUndefined args) = false.

(** The handler terminated the trigger with a failure: it called the
    terminate operation with an error as first argument. *)
Definition terminated_with_failure (trace : list Gist.event) : Prop :=
  exists args, In (Done args) trace /\ truthy (hd VUndefined args) = true.

(** What the completion of the nested read delivers as content: the parse of
    [xhr.responseText], or the exception raised on the way. *)
Definition response_content (xhr : value) : result value :=
  match get xhr "responseText" with
  | Ok text => JSON.parse text
  | Throw e => Throw e
  end.

(** A response whose content cannot be loaded, with the error that tells so:
    the body is not JSON, or what it parses to has no [files] map, or that
    map has no [notebook.md] entry. *)
Inductive malformed : result value -> value -> Prop :=
  | not_json e :
      malformed (Throw e) e
  | no_object content :
      truthy content = false ->
      malformed (Ok content) (Error "Unexpected JSON response")
  | no_files content files :
      get content "files" = Ok files ->
      truthy files = false ->
      malformed (Ok content) (Error "Unexpected JSON response")
  | no_notebook content files notebook :
      get content "files" = Ok files ->
      get files "notebook.md" = Ok notebook ->
      truthy notebook = false ->
      malformed (Ok content) (Error "Unexpected JSON response").

(** The request of the load handler's read. *)
Definition load_request (d : payload) : value :=
  VObj [("url", VStr ("https://api.github.com/gists/" +:+ to_string (id d)));
        ("method", VStr "GET")].

(** The document a save writes, and the request of the save handler's
    write: an update of the gist the payload names, or a creation. *)
Definition gist_document (text : value) : value :=
  VObj [("files", VObj [("notebook.md", VObj [("content", text)])])].

Definition save_request (d : payload) : value :=
  VObj [("url", VStr (if truthy (id d)
                      then "https://api.github.com/gists/" +:+ to_string (id d)
                      else "https://api.github.com/gists"));
        ("method", VStr (if truthy (id d) then "PATCH" else "POST"));
        ("data", JSON.stringify (gist_document (contents d)));
        ("oauth2", VObj [("authorizationUrl", VStr AUTH_URL)])].

(** The HTTP statuses 200 and 201. *)
Definition accepted (status : value) : bool :=
  strict_eq status (VInt 200) || strict_eq status (VInt 201).

(** A property of a value known to have properties. *)
Definition property (v : value) (k : string) : value :=
  match get v k with Ok x => x | Throw _ => VUndefined end.

(** The owner a gist names: the id of its user, when it has one. *)
Definition owner_of (content : value) : value :=
  let user := property content "user" in
  if truthy user then property user "id" else user.

(** The payload after its identifier and owner were taken from a response. *)
Definition identified (d : payload) (content : value) : payload :=
  {| id := property content "id"; ownerId := owner_of content;
     contents := contents d; isAuthenticated := isAuthenticated d |}.

(** The requests of the authentication handler's two nested triggers, and
    the identity it resolves from the validation response. *)
Definition oauth2_request (env : environment) : value :=
  VObj [("scopes", VArr [VStr "gist"]);
        ("clientId", CLIENT_ID env);
        ("clientSecret", VStr "");
        ("validateUrl", VStr VALID_URL);
        ("accessTokenUrl", VStr TOKEN_URL);
        ("authorizationUrl", VStr AUTH_URL)].

Definition validate_request : value :=
  VObj [("validateUrl", VStr VALID_URL); ("authorizationUrl", VStr AUTH_URL)].


(** What a validation delivers as content: the parse of
    [auth.xhr.responseText], or the exception raised on the way. *)
Definition validation_content (auth : value) : result value :=
  match get auth "xhr" with
  | Ok xhr => response_content xhr
  | Throw e => Throw e
  end.


(** The targets the proxy takes for the access-token endpoint of Github:
    the scheme http or https, the host [github], any one character that is
    not a line terminator, [com], and a path that starts with
    [/login/oauth/access_token]. *)
Definition token_endpoint (target : string) : Prop :=
  exists scheme c rest,
    (scheme = "http" \/ scheme = "https") /\
    Server.line_terminator c = false /\
    target = scheme +:+ "://github"
             +:+ String c ("com/login/oauth/access_token" +:+ rest).

(** The names of the properties of an object, in order. *)
Definition keys (props : list (string * value)) : list string := map fst props.

(** A build target whose options hold this debug flag and this transform
    list. *)
Definition target_options (debug transform : value) (target : string * value)
  : Prop :=
  property (property (snd target) "options") "debug" = debug /\
  property (property (snd target) "options") "transform" = transform.

(** How often a handler called one of its two operations, and whether an
    exception escaped it. *)
Definition calls (trace : list Gist.event) : nat :=
  List.length (List.filter (fun e => is_next e || is_done e) trace).

Definition is_uncaught (e : Gist.event) : bool :=
  match e with Uncaught _ => true | _ => false end.

(** How often a character occurs in a string. *)
Fixpoint occurrences (c : ascii) (s : string) : nat :=
  match s with
  | EmptyString => O
  | String x r => if Ascii.eqb x c then S (occurrences c r) else occurrences c r
  end.

(** Inputs the statements are tried on. *)
Definition online (answer : option (value * value)) : environment :=
  {| navigator_onLine := VBool true;
     CLIENT_ID := VStr "client";
     respond := fun _ _ => answer |}.

Definition offline : environment :=
  {| navigator_onLine := VBool false;
     CLIENT_ID := VStr "client";
     respond := fun _ _ => None |}.

Definition notebook (identifier : value) (authenticated : bool) : payload :=
  {| id := identifier; ownerId := VUndefined; contents := VStr "# Notes";
     isAuthenticated := VBool authenticated |}.

Definition reply (status : Z) (body : string) : value :=
  VObj [("status", VInt status); ("responseText", VStr (dq body))].

(** An environment in which the OAuth2 exchange succeeds and the validation
    answers with the given body. *)
Definition github (body : string) : environment :=
  {| navigator_onLine := VBool true;
     CLIENT_ID := VStr "client";
     respond := fun channel _ =>
       if String.eqb channel "authenticate:oauth2"
       then Some (VNull, VObj [("accessToken", VStr "token")])
       else Some (VNull, VObj [("accessToken", VStr "token");
                               ("xhr", reply 200 body)]) |}.


(** The two handlers of the fallback scenario of the specification: the
    first continues with 'not found', the second terminates with
    'recovered'. *)
Definition not_found : Middleware.handler :=
  fun payload => (payload, Middleware.Continue (Some (VStr "not found"))).

Definition recovered : Middleware.handler :=
  fun payload => (payload, Middleware.Terminate None (VStr "recovered")).

Definition fallback : gmap string (list Middleware.handler) :=
  Middleware.register "fallback" recovered
    (Middleware.register "fallback" not_found ∅).

(** A handler that calls neither operation. *)
Definition silent : Middleware.handler :=
  fun payload => (payload, Middleware.Stall).

#[local] Arguments JSON.parse : simpl never.
#[local] Arguments JSON.stringify : simpl never.
#[local] Arguments truthy !v /.
#[local] Arguments get !v k /.
#[local] Arguments strict_eq !a !b /.

Ltac case_step :=
  match goal with
  | |- context [respond ?e ?c ?r] => destruct (respond e c r) as [[? ?]|] eqn:?
  | |- context [truthy ?v] => destruct (truthy v) eqn:?
  | |- context [get ?v ?k] => destruct (get v k) eqn:?
  | |- context [JSON.parse ?v] => destruct (JSON.parse v) eqn:?
  | |- context [strict_ne ?a ?b] => destruct (strict_ne a b) eqn:?
  | |- context [strict_eq ?a ?b] => destruct (strict_eq a b) eqn:?
  end; cbn.

Ltac run_handler :=
  unfold run, savePlugin, loadPlugin, authenticatePlugin, authenticatedPlugin,
    authenticatedUserId, trigger, bind, field, emit, ret, lift, attempt, read,
    and, or, set_id, set_ownerId, set_contents, update; cbn.

(** ** The host functions on sample inputs *)

Example stringify_document :
  JSON.stringify (gist_document (VStr "# Notes"))
  = VStr (dq "{'files':{'notebook.md':{'content':'# Notes'}}}").
Proof. reflexivity. Qed.

Example stringify_without_contents :
  JSON.stringify (gist_document VUndefined)
  = VStr (dq "{'files':{'notebook.md':{}}}").
Proof. reflexivity. Qed.

Example parse_numbers :
  JSON.parse (VStr "[200, -1.50, 2e3, 0.0]")
  = Ok (VArr [VInt 200; VNum (-15) (-1); VInt 2000; VInt 0]).
Proof. reflexivity. Qed.

Example parse_of_undefined :
  JSON.parse VUndefined = Throw (SyntaxError "Unexpected token in JSON").
Proof. reflexivity. Qed.

Example parse_after_stringify :
  JSON.parse (JSON.stringify (gist_document (VStr (dq "a 'quoted' \ line"))))
  = Ok (gist_document (VStr (dq "a 'quoted' \ line"))).
Proof. reflexivity. Qed.

(** ** Reading properties *)

(** A value one property of which can be read lets every property be read. *)
Lemma get_defined (v : value) (k k' : string) (x : value) :
  get v k = Ok x -> exists y, get v k' = Ok y.
Proof.
  destruct v; cbn; intros H; try discriminate; eauto.
Qed.

(** Reading a property of a truthy value does not throw. *)
Lemma get_truthy (v : value) (k : string) :
  truthy v = true -> exists y, get v k = Ok y.
Proof.
  destruct v; cbn; intros H; try discriminate; eauto.
Qed.

Lemma get_property (v : value) (k : string) (x : value) :
  get v k = Ok x -> property v k = x.
Proof.
  unfold property. intros ->. reflexivity.
Qed.

(** On integers the status check is the comparison with 200 and 201. *)
Lemma accepted_int (n : Z) :
  accepted (VInt n) = (n =? 200) || (n =? 201).
Proof.
  unfold accepted, VInt. cbn. unfold num_eqb. cbn.
  rewrite Z.mul_1_r. reflexivity.
Qed.

(** The condition of the handler's status test, by De Morgan. *)
Lemma status_check (status : value) :
  strict_ne status (VInt 200) && strict_ne status (VInt 201)
  = negb (accepted status).
Proof.
  unfold accepted, strict_ne.
  destruct (strict_eq status (VInt 200)), (strict_eq status (VInt 201));
    reflexivity.
Qed.

(** ** The save handler *)

Section Save.

Variable env : environment.
Variable d : payload.

(** C5: when [isAuthenticated()] answers false, the save handler calls the
    continue operation with no argument and does nothing else: no nested
    trigger (no network access) is logged, and the payload is returned as it
    was. *)
Theorem save_unauthenticated_declines :
  truthy (isAuthenticated d) = false ->
  run (savePlugin env) d = (d, [Next []]).
Proof.
  intros Hauth. run_handler. rewrite Hauth. reflexivity.
Qed.

(** C4 (as amended): when [isAuthenticated()] answers true and
    [navigator.onLine] is [false], the save handler calls the continue
    operation with the error 'No internet available', and does nothing else:
    no write is attempted and the payload is returned as it was. *)
Theorem save_offline_continues_with_error :
  truthy (isAuthenticated d) = true ->
  navigator_onLine env = VBool false ->
  run (savePlugin env) d = (d, [Next [Error "No internet available"]]).
Proof.
  intros Hauth Hoff. run_handler. rewrite Hauth, Hoff. reflexivity.
Qed.

(** No run of the save handler calls the terminate operation. *)
Lemma save_never_done :
  existsb is_done (snd (run (savePlugin env) d)) = false.
Proof.
  run_handler. repeat case_step; reflexivity.
Qed.

Hypothesis authenticated : truthy (isAuthenticated d) = true.
Hypothesis not_offline : strict_eq (navigator_onLine env) (VBool false) = false.

Lemma save_request_sent :
  exists rest,
    snd (run (savePlugin env) d) = Trigger "ajax:oauth2" (save_request d) :: rest.
Proof.
  run_handler. rewrite authenticated, not_offline. cbn.
  replace (VObj _) with (save_request d)
    by (unfold save_request, concat; destruct (truthy (id d)); reflexivity).
  repeat case_step; eauto.
Qed.

Variables err xhr : value.
Hypothesis completes :
  respond env "ajax:oauth2" (save_request d) = Some (err, xhr).

Ltac save_to_callback :=
  run_handler; rewrite authenticated, not_offline; cbn;
  replace (VObj _) with (save_request d)
    by (unfold save_request, concat; destruct (truthy (id d)); reflexivity);
  rewrite completes; cbn.

Lemma save_transport_error :
  truthy err = true ->
  run (savePlugin env) d = (d, [Trigger "ajax:oauth2" (save_request d); Next [err]]).
Proof.
  intros Herr. save_to_callback. rewrite Herr. reflexivity.
Qed.

Lemma save_rejected (status : value) :
  truthy err = false ->
  get xhr "status" = Ok status ->
  accepted status = false ->
  run (savePlugin env) d
  = (d, [Trigger "ajax:oauth2" (save_request d); Next [Error "Request failed"]]).
Proof.
  intros Herr Hstatus Hno. save_to_callback. rewrite Herr, Hstatus. cbn.
  rewrite status_check, Hno. reflexivity.
Qed.

Lemma save_unreadable (status e : value) :
  truthy err = false ->
  get xhr "status" = Ok status ->
  accepted status = true ->
  response_content xhr = Throw e ->
  run (savePlugin env) d = (d, [Trigger "ajax:oauth2" (save_request d); Next [e]]).
Proof.
  intros Herr Hstatus Hyes Hbody. save_to_callback. rewrite Herr, Hstatus. cbn.
  rewrite status_check, Hyes. cbn.
  unfold response_content in Hbody.
  destruct (get xhr "responseText") as [text|]; cbn.
  - rewrite Hbody. reflexivity.
  - injection Hbody as ->. reflexivity.
Qed.

Lemma save_no_object (status content e : value) :
  truthy err = false ->
  get xhr "status" = Ok status ->
  accepted status = true ->
  response_content xhr = Ok content ->
  get content "id" = Throw e ->
  run (savePlugin env) d = (d, [Trigger "ajax:oauth2" (save_request d); Next [e]]).
Proof.
  intros Herr Hstatus Hyes Hbody Hid. save_to_callback. rewrite Herr, Hstatus. cbn.
  rewrite status_check, Hyes. cbn.
  unfold response_content in Hbody.
  destruct (get xhr "responseText") as [text|]; [|discriminate]. cbn.
  rewrite Hbody, Hid. reflexivity.
Qed.

Lemma save_stored (status content content_id : value) :
  truthy err = false ->
  get xhr "status" = Ok status ->
  accepted status = true ->
  response_content xhr = Ok content ->
  get content "id" = Ok content_id ->
  run (savePlugin env) d
  = (identified d content, [Trigger "ajax:oauth2" (save_request d); Next []]).
Proof.
  intros Herr Hstatus Hyes Hbody Hid. save_to_callback. rewrite Herr, Hstatus. cbn.
  rewrite status_check, Hyes. cbn.
  unfold response_content in Hbody.
  destruct (get xhr "responseText") as [text|]; [|discriminate]. cbn.
  rewrite Hbody, Hid. cbn.
  unfold identified, owner_of. rewrite (get_property _ _ _ Hid).
  destruct (get_defined _ _ "user" _ Hid) as [user Huser].
  rewrite Huser, (get_property _ _ _ Huser). cbn.
  destruct (truthy user) eqn:Htruthy; cbn; [|reflexivity].
  destruct (get_truthy user "id" Htruthy) as [uid Huid].
  rewrite Huid, (get_property _ _ _ Huid). reflexivity.
Qed.

(** C2 (as amended): past its two guards, and once the write has completed
    with an error or with a response, the save handler calls the continue
    operation and never the terminate operation: with the transport error
    when there is one; with the error 'Request failed' when the status is
    neither 200 nor 201; with the exception raised when the response body
    cannot be read as a JSON value with properties; and otherwise with no
    argument, the payload's [id] and [ownerId] having been set from the
    response. *)
Theorem save_continues_after_write :
  let sent := Trigger "ajax:oauth2" (save_request d) in
  existsb is_done (snd (run (savePlugin env) d)) = false /\
  (truthy err = true ->
   run (savePlugin env) d = (d, [sent; Next [err]])) /\
  (forall status,
     truthy err = false -> get xhr "status" = Ok status ->
     (accepted status = false ->
      run (savePlugin env) d = (d, [sent; Next [Error "Request failed"]])) /\
     (accepted status = true ->
      (forall e,
         response_content xhr = Throw e ->
         run (savePlugin env) d = (d, [sent; Next [e]])) /\
      (forall content e,
         response_content xhr = Ok content -> get content "id" = Throw e ->
         run (savePlugin env) d = (d, [sent; Next [e]])) /\
      (forall content content_id,
         response_content xhr = Ok content -> get content "id" = Ok content_id ->
         run (savePlugin env) d = (identified d content, [sent; Next []])))).
Proof.
  cbv zeta. split; [apply save_never_done|].
  split; [apply save_transport_error|].
  intros status Herr Hstatus. split; [apply save_rejected; assumption|].
  intros Hyes. repeat split; intros.
  - eapply save_unreadable; eassumption.
  - eapply save_no_object; eassumption.
  - eapply save_stored; eassumption.
Qed.

(** C7: a save that reaches the write triggers [ajax:oauth2] with the method
    PATCH and the id appended to the URL when the payload has an id, with the
    method POST otherwise, and with the JSON serialization of
    [{ files: { 'notebook.md': { content: contents } } }] as body.  A status
    that is not accepted is reported as the failure 'Request failed'; with an
    accepted status and a response that reads as a JSON value with
    properties, the handler continues without an error; and the accepted
    statuses are exactly 200 and 201. *)
Theorem save_request_and_statuses :
  (exists rest,
     snd (run (savePlugin env) d)
     = Trigger "ajax:oauth2"
         (VObj [("url", VStr (if truthy (id d)
                              then "https://api.github.com/gists/"
                                   +:+ to_string (id d)
                              else "https://api.github.com/gists"));
                ("method", VStr (if truthy (id d) then "PATCH" else "POST"));
                ("data",
                 JSON.stringify
                   (VObj [("files",
                           VObj [("notebook.md",
                                  VObj [("content", contents d)])])]));
                ("oauth2", VObj [("authorizationUrl", VStr AUTH_URL)])])
       :: rest) /\
  (forall status,
     truthy err = false -> get xhr "status" = Ok status ->
     accepted status = false ->
     run (savePlugin env) d
     = (d, [Trigger "ajax:oauth2" (save_request d);
            Next [Error "Request failed"]])) /\
  (forall status content content_id,
     truthy err = false -> get xhr "status" = Ok status ->
     accepted status = true ->
     response_content xhr = Ok content -> get content "id" = Ok content_id ->
     run (savePlugin env) d
     = (identified d content, [Trigger "ajax:oauth2" (save_request d); Next []])) /\
  (forall n, accepted (VInt n) = true <-> n = 200 \/ n = 201).
Proof.
  split; [exact save_request_sent|].
  split; [exact save_rejected|].
  split; [exact save_stored|].
  intros n. rewrite accepted_int, orb_true_iff, !Z.eqb_eq. reflexivity.
Qed.

End Save.

(** *** The save handler on sample inputs *)

Lemma save_unauthenticated_declines_witness :
  run (savePlugin (online None)) (notebook (VStr "g0") false)
  = (notebook (VStr "g0") false, [Next []]).
Proof.
  apply (save_unauthenticated_declines (online None) (notebook (VStr "g0") false)).
  reflexivity.
Defined.

Lemma save_offline_continues_with_error_witness :
  run (savePlugin offline) (notebook (VStr "g0") true)
  = (notebook (VStr "g0") true, [Next [Error "No internet available"]]).
Proof.
  apply (save_offline_continues_with_error offline (notebook (VStr "g0") true));
    reflexivity.
Defined.

(** C4, as the specification words it, fails: offline, an authenticated
    payload is not declined; the continue operation is handed an error. *)
Lemma save_offline_is_not_a_decline :
  isAuthenticated (notebook (VStr "g0") true) = VBool true /\
  navigator_onLine offline = VBool false /\
  ~ declined (snd (run (savePlugin offline) (notebook (VStr "g0") true))).
Proof.
  split; [reflexivity|]. split; [reflexivity|].
  intros (args & Htrace & Hnone). vm_compute in Htrace.
  injection Htrace as <-. discriminate Hnone.
Qed.

(** C2, as the specification words it, fails: after a write that succeeded
    the terminate operation is not called; the handler continues. *)
Lemma save_success_is_not_a_termination :
  let env := online (Some (VNull, reply 201 "{'id':'g1','user':{'id':7}}")) in
  let d := notebook VUndefined true in
  truthy (isAuthenticated d) = true /\
  strict_eq (navigator_onLine env) (VBool false) = false /\
  run (savePlugin env) d
  = ({| id := VStr "g1"; ownerId := VInt 7; contents := VStr "# Notes";
        isAuthenticated := VBool true |},
     [Trigger "ajax:oauth2" (save_request d); Next []]) /\
  ~ (exists args, In (Done args) (snd (run (savePlugin env) d))).
Proof.
  cbv zeta. split; [reflexivity|]. split; [reflexivity|].
  split; [vm_compute; reflexivity|].
  intros (args & Hin). vm_compute in Hin.
  destruct Hin as [H | [H | []]]; discriminate H.
Qed.

Lemma save_continues_after_write_witness :
  let env := online (Some (VNull, reply 201 "{'id':'g1','user':{'id':7}}")) in
  let d := notebook VUndefined true in
  run (savePlugin env) d
  = ({| id := VStr "g1"; ownerId := VInt 7; contents := VStr "# Notes";
        isAuthenticated := VBool true |},
     [Trigger "ajax:oauth2" (save_request d); Next []]).
Proof.
  cbv zeta.
  destruct (save_continues_after_write
              (online (Some (VNull, reply 201 "{'id':'g1','user':{'id':7}}")))
              (notebook VUndefined true) eq_refl eq_refl VNull
              (reply 201 "{'id':'g1','user':{'id':7}}") eq_refl)
    as (_ & _ & H).
  destruct (H (VInt 201) eq_refl eq_refl) as (_ & Hyes).
  destruct (Hyes eq_refl) as (_ & _ & Hstored).
  exact (Hstored (VObj [("id", VStr "g1"); ("user", VObj [("id", VInt 7)])])
           (VStr "g1") eq_refl eq_refl).
Defined.

Lemma save_request_and_statuses_witness :
  let env := online (Some (VNull, reply 404 "{'message':'Not Found'}")) in
  let d := notebook (VStr "g0") true in
  run (savePlugin env) d
  = (d, [Trigger "ajax:oauth2"
           (VObj [("url", VStr "https://api.github.com/gists/g0");
                  ("method", VStr "PATCH");
                  ("data",
                   VStr (dq "{'files':{'notebook.md':{'content':'# Notes'}}}"));
                  ("oauth2", VObj [("authorizationUrl", VStr AUTH_URL)])]);
         Next [Error "Request failed"]]).
Proof.
  cbv zeta.
  destruct (save_request_and_statuses
              (online (Some (VNull, reply 404 "{'message':'Not Found'}")))
              (notebook (VStr "g0") true) eq_refl eq_refl VNull
              (reply 404 "{'message':'Not Found'}") eq_refl) as (_ & Hno & _).
  exact (Hno (VInt 404) eq_refl eq_refl eq_refl).
Defined.

(** ** The load handler *)

Section Load.

Variable env : environment.
Variable d : payload.

(** C8: when the payload has no identifier ([data.id] is absent or falsy),
    the load handler calls the continue operation with no argument and does
    nothing else: no nested trigger (no network access) is logged, and the
    payload is returned as it was. *)
Theorem load_without_id_declines :
  truthy (id d) = false ->
  run (loadPlugin env) d = (d, [Next []]).
Proof.
  intros Hid. run_handler. rewrite Hid. reflexivity.
Qed.

Hypothesis has_id : truthy (id d) = true.

Variables err xhr : value.
Hypothesis completes : respond env "ajax" (load_request d) = Some (err, xhr).

Ltac load_to_callback :=
  run_handler; rewrite has_id; cbn;
  change (VObj _) with (load_request d);
  rewrite completes; cbn;
  unfold response_content in *.

Lemma load_malformed (e : value) :
  malformed (response_content xhr) e ->
  run (loadPlugin env) d = (d, [Trigger "ajax" (load_request d); Next [e]]).
Proof.
  intros Hbad. load_to_callback.
  destruct (get xhr "responseText") as [text|]; cbn.
  - destruct (JSON.parse text) as [content|]; cbn.
    + inversion Hbad as [ | c Hc | c files Hfiles Hc | c files nb Hfiles Hnb Hc ];
        subst; unfold not; cbn.
      * rewrite Hc. reflexivity.
      * rewrite Hfiles. cbn. rewrite Hc. cbn.
        destruct (truthy content); reflexivity.
      * rewrite Hfiles. cbn. rewrite Hnb. cbn. rewrite Hc. cbn.
        destruct (truthy content); [destruct (truthy files)|]; reflexivity.
    + inversion Hbad; subst. reflexivity.
  - inversion Hbad; subst. reflexivity.
Qed.

Lemma load_stored (content files notebook : value) :
  response_content xhr = Ok content ->
  truthy content = true ->
  get content "files" = Ok files -> truthy files = true ->
  get files "notebook.md" = Ok notebook -> truthy notebook = true ->
  run (loadPlugin env) d
  = ({| id := property content "id";
        ownerId := owner_of content;
        contents := property notebook "content";
        isAuthenticated := isAuthenticated d |},
     [Trigger "ajax" (load_request d); Done []]).
Proof.
  intros Hbody Hcontent Hfiles Hf Hnb Hn. load_to_callback.
  destruct (get xhr "responseText") as [text|]; [|discriminate]. cbn.
  rewrite Hbody. cbn. unfold not. rewrite Hcontent, Hfiles. cbn.
  rewrite Hf, Hnb. cbn. rewrite Hn. cbn.
  destruct (get_truthy content "id" Hcontent) as [content_id Hid].
  destruct (get_truthy content "user" Hcontent) as [user Huser].
  destruct (get_truthy notebook "content" Hn) as [text' Htext].
  unfold owner_of.
  rewrite Hid, Huser, (get_property _ _ _ Hid), (get_property _ _ _ Huser),
    (get_property _ _ _ Htext). cbn.
  destruct (truthy user) eqn:Htruthy; cbn.
  - destruct (get_truthy user "id" Htruthy) as [uid Huid].
    rewrite Huid, (get_property _ _ _ Huid). cbn. rewrite Htext. reflexivity.
  - rewrite Htext. reflexivity.
Qed.

End Load.

(** A response content is malformed or has a truthy [notebook.md] entry in
    a truthy [files] map. *)
Lemma malformed_or_loadable (r : result value) :
  (exists e, malformed r e) \/
  (exists content files notebook,
     r = Ok content /\ truthy content = true /\
     get content "files" = Ok files /\ truthy files = true /\
     get files "notebook.md" = Ok notebook /\ truthy notebook = true).
Proof.
  destruct r as [content|e]; [|left; eauto using malformed].
  destruct (truthy content) eqn:Hcontent; [|left; eauto using malformed].
  destruct (get_truthy content "files" Hcontent) as [files Hfiles].
  destruct (truthy files) eqn:Hf; [|left; eauto using malformed].
  destruct (get_truthy files "notebook.md" Hf) as [notebook Hnb].
  destruct (truthy notebook) eqn:Hn; [|left; eauto using malformed].
  right. exists content, files, notebook.
  repeat split; assumption || reflexivity.
Qed.

Lemma sample_gist_parses :
  JSON.parse
    (VStr (dq "{'id':'g1','user':{'id':7},'files':{'notebook.md':{'content':'hi'}}}"))
  = Ok (VObj [("id", VStr "g1");
              ("user", VObj [("id", VInt 7)]);
              ("files", VObj [("notebook.md", VObj [("content", VStr "hi")])])]).
Proof. vm_compute. reflexivity. Qed.

(** C3 (as amended): when the payload carries an identifier and the read
    completes with a response whose content is malformed (the body is not
    JSON, or what it parses to lacks the [files] map or its [notebook.md]
    entry), the load handler calls the continue operation with the error,
    which hands control to the handlers after it; it does not call the
    terminate operation, and it returns the payload as it was. *)
Theorem load_malformed_continues_with_error
    (env : environment) (d : payload) (err xhr e : value) :
  truthy (id d) = true ->
  respond env "ajax" (load_request d) = Some (err, xhr) ->
  malformed (response_content xhr) e ->
  run (loadPlugin env) d = (d, [Trigger "ajax" (load_request d); Next [e]]).
Proof.
  intros Hid Hcompletes Hbad. exact (load_malformed env d Hid err xhr Hcompletes e Hbad).
Qed.

(** C6: when the payload carries an identifier and the read returns the body
    [{'id':'g1','user':{'id':7},'files':{'notebook.md':{'content':'hi'}}}]
    (with the quotation marks of JSON), the load handler sets [id] to 'g1',
    [ownerId] to 7 and [contents] to 'hi', and calls the terminate operation
    with no error. *)
Theorem load_sample_gist (env : environment) (d : payload) (err xhr : value) :
  truthy (id d) = true ->
  respond env "ajax" (load_request d) = Some (err, xhr) ->
  get xhr "responseText"
  = Ok (VStr (dq "{'id':'g1','user':{'id':7},'files':{'notebook.md':{'content':'hi'}}}")) ->
  run (loadPlugin env) d
  = ({| id := VStr "g1"; ownerId := VInt 7; contents := VStr "hi";
        isAuthenticated := isAuthenticated d |},
     [Trigger "ajax" (load_request d); Done []]).
Proof.
  intros Hid Hcompletes Hbody.
  assert (Hcontent : response_content xhr = Ok (VObj [("id", VStr "g1");
              ("user", VObj [("id", VInt 7)]);
              ("files", VObj [("notebook.md", VObj [("content", VStr "hi")])])]))
    by (unfold response_content; rewrite Hbody; apply sample_gist_parses).
  rewrite (load_stored env d Hid err xhr Hcompletes _
             (VObj [("notebook.md", VObj [("content", VStr "hi")])])
             (VObj [("content", VStr "hi")]) Hcontent);
    reflexivity.
Qed.

(** C10 (as amended): the load handler ignores the error argument of the
    nested [ajax] completion.  Its run is the same whatever that argument
    is; it is decided by the content of [xhr.responseText]: a malformed
    content has the handler continue with the parse-level error, any other
    has it terminate without an error; so an error of the [ajax] trigger is
    never what the handler forwards.  When the completion supplies no [xhr]
    object, reading [responseText] from it throws inside the [try] block and
    the handler calls the continue operation with that exception. *)
Theorem load_ignores_error_argument
    (env : environment) (d : payload) (err xhr : value) :
  truthy (id d) = true ->
  respond env "ajax" (load_request d) = Some (err, xhr) ->
  let sent := Trigger "ajax" (load_request d) in
  (forall env' err',
     respond env' "ajax" (load_request d) = Some (err', xhr) ->
     run (loadPlugin env') d = run (loadPlugin env) d) /\
  ((exists e, malformed (response_content xhr) e /\
              run (loadPlugin env) d = (d, [sent; Next [e]])) \/
   (exists d', run (loadPlugin env) d = (d', [sent; Done []]))) /\
  (forall e,
     get xhr "responseText" = Throw e ->
     run (loadPlugin env) d = (d, [sent; Next [e]])).
Proof.
  intros Hid Hcompletes sent. subst sent.
  destruct (malformed_or_loadable (response_content xhr))
    as [(e & Hbad) | (content & files & nb & Hbody & Hc & Hfiles & Hf & Hnb & Hn)].
  - split; [|split].
    + intros env' err' Hcompletes'.
      rewrite (load_malformed env d Hid err xhr Hcompletes e Hbad).
      exact (load_malformed env' d Hid err' xhr Hcompletes' e Hbad).
    + left. exists e. split; [assumption|].
      exact (load_malformed env d Hid err xhr Hcompletes e Hbad).
    + intros e' Hthrow. apply (load_malformed env d Hid err xhr Hcompletes).
      unfold response_content. rewrite Hthrow. constructor.
  - split; [|split].
    + intros env' err' Hcompletes'.
      rewrite (load_stored env d Hid err xhr Hcompletes content files nb);
        try assumption.
      apply (load_stored env' d Hid err' xhr Hcompletes' content files nb);
        assumption.
    + right. eexists.
      apply (load_stored env d Hid err xhr Hcompletes content files nb);
        assumption.
    + intros e' Hthrow. unfold response_content in Hbody.
      rewrite Hthrow in Hbody. discriminate.
Qed.

(** *** The load handler on sample inputs *)

Lemma load_without_id_declines_witness :
  run (loadPlugin (online None)) (notebook VUndefined true)
  = (notebook VUndefined true, [Next []]).
Proof.
  apply (load_without_id_declines (online None) (notebook VUndefined true)).
  reflexivity.
Defined.

(** C3, as the specification words it, fails: a body that is not JSON does
    not have the handler terminate with a failure; it continues, with the
    error, to the handlers after it. *)
Lemma load_malformed_is_not_a_termination :
  let env := online (Some (VNull, reply 200 "<html>")) in
  let d := notebook (VStr "g0") true in
  truthy (id d) = true /\
  respond env "ajax" (load_request d) = Some (VNull, reply 200 "<html>") /\
  malformed (response_content (reply 200 "<html>"))
    (SyntaxError "Unexpected token in JSON") /\
  run (loadPlugin env) d
  = (d, [Trigger "ajax" (load_request d);
         Next [SyntaxError "Unexpected token in JSON"]]) /\
  ~ terminated_with_failure (snd (run (loadPlugin env) d)).
Proof.
  cbv zeta. split; [reflexivity|]. split; [reflexivity|].
  split; [vm_compute; constructor|]. split; [vm_compute; reflexivity|].
  intros (args & Hin & _). vm_compute in Hin.
  destruct Hin as [H | [H | []]]; discriminate H.
Qed.

Lemma load_malformed_continues_with_error_witness :
  let env := online (Some (VNull, reply 200 "{'id':'g1','files':{}}")) in
  let d := notebook (VStr "g0") true in
  run (loadPlugin env) d
  = (d, [Trigger "ajax" (load_request d);
         Next [Error "Unexpected JSON response"]]).
Proof.
  cbv zeta.
  apply (load_malformed_continues_with_error
           (online (Some (VNull, reply 200 "{'id':'g1','files':{}}")))
           (notebook (VStr "g0") true) VNull
           (reply 200 "{'id':'g1','files':{}}")).
  - reflexivity.
  - reflexivity.
  - apply (no_notebook (VObj [("id", VStr "g1"); ("files", VObj [])])
             (VObj []) VUndefined); reflexivity.
Defined.

Lemma load_sample_gist_witness :
  let body := "{'id':'g1','user':{'id':7},'files':{'notebook.md':{'content':'hi'}}}" in
  let env := online (Some (VNull, reply 200 body)) in
  let d := notebook (VStr "g0") true in
  run (loadPlugin env) d
  = ({| id := VStr "g1"; ownerId := VInt 7; contents := VStr "hi";
        isAuthenticated := VBool true |},
     [Trigger "ajax"
        (VObj [("url", VStr "https://api.github.com/gists/g0");
               ("method", VStr "GET")]);
      Done []]).
Proof.
  cbv zeta.
  apply (load_sample_gist
           (online (Some (VNull, reply 200
              "{'id':'g1','user':{'id':7},'files':{'notebook.md':{'content':'hi'}}}")))
           (notebook (VStr "g0") true) VNull
           (reply 200
              "{'id':'g1','user':{'id':7},'files':{'notebook.md':{'content':'hi'}}}"));
    reflexivity.
Defined.

(** C10, as the claim words it, fails in its last part: an error with no
    [xhr] object does have the handler call the continue operation. *)
Lemma load_missing_xhr_still_continues :
  let env := online (Some (Error "Network error", VUndefined)) in
  let d := notebook (VStr "g0") true in
  respond env "ajax" (load_request d) = Some (Error "Network error", VUndefined) /\
  run (loadPlugin env) d
  = (d, [Trigger "ajax" (load_request d);
         Next [TypeError "Cannot read property 'responseText' of undefined"]]) /\
  existsb (fun e => is_next e || is_done e) (snd (run (loadPlugin env) d))
  <> false.
Proof.
  cbv zeta. split; [reflexivity|]. split; [vm_compute; reflexivity|].
  vm_compute. discriminate.
Qed.

Lemma load_ignores_error_argument_witness :
  let env := online (Some (Error "Network error", VUndefined)) in
  let d := notebook (VStr "g0") true in
  run (loadPlugin env) d
  = (d, [Trigger "ajax" (load_request d);
         Next [TypeError "Cannot read property 'responseText' of undefined"]]).
Proof.
  cbv zeta.
  destruct (load_ignores_error_argument
              (online (Some (Error "Network error", VUndefined)))
              (notebook (VStr "g0") true) (Error "Network error") VUndefined
              eq_refl eq_refl) as (_ & _ & H).
  exact (H _ eq_refl).
Defined.

(** ** The authentication handler *)

Section Authenticate.

Variable env : environment.
Variable d : payload.


Variables err auth : value.
Hypothesis exchanged :
  respond env "authenticate:oauth2" (oauth2_request env) = Some (err, auth).



Hypothesis succeeded : truthy err = false.


Variables verr vauth : value.
Hypothesis validated :
  respond env "authenticate:oauth2:validate" validate_request
  = Some (verr, vauth).




End Authenticate.




(** ** The dispatcher's completion *)

Section Completion.

Import Middleware.

Lemma walk_ends_in_completion (snapshot : list handler) :
  Forall responsive snapshot ->
  forall cursor lastError payload,
  exists invoked err result,
    walk snapshot cursor lastError payload
    = (invoked ++ [Completion err result])%list /\
    completions invoked = 0%nat.
Proof.
  induction 1 as [|h rest Hh _ IH]; intros cursor lastError payload.
  - exists [], lastError, payload. split; reflexivity.
  - cbn. specialize (Hh payload).
    destruct (h payload) as [payload' [err' | err' result |]]; cbn in *.
    + destruct (IH (S cursor) err' payload')
        as (invoked & err & result & -> & Hnone).
      exists (Invoked cursor :: invoked), err, result. split; [reflexivity|].
      exact Hnone.
    + exists [Invoked cursor], err', result. split; reflexivity.
    + contradiction.
Qed.

Lemma completions_app (before after : list event) :
  completions (before ++ after) = (completions before + completions after)%nat.
Proof.
  unfold completions. rewrite List.filter_app, List.length_app. reflexivity.
Qed.

(** A handler that calls neither operation leaves the trigger without a
    completion. *)
Lemma walk_stalls (snapshot : list handler) (cursor : nat)
    (lastError : option value) (payload : value) :
  completions (walk (silent :: snapshot) cursor lastError payload) = 0%nat.
Proof. reflexivity. Qed.

End Completion.

(** C1: one invocation of [trigger] calls the completion function exactly
    once, with a failure or with a success, however many handlers the
    channel has and whichever of continue and terminate each of them calls:
    the run ends with the one call of the completion function, and no call
    of it comes before. *)
Theorem trigger_completes_exactly_once
    (registry : gmap string (list Middleware.handler))
    (channel : string) (payload : value) :
  Forall Middleware.responsive (Middleware.handlers_of registry channel) ->
  Middleware.completions (Middleware.trigger registry channel payload) = 1%nat /\
  exists invoked err result,
    Middleware.trigger registry channel payload
    = (invoked ++ [Middleware.Completion err result])%list /\
    Middleware.completions invoked = 0%nat.
Proof.
  intros Hresponsive. unfold Middleware.trigger.
  destruct (walk_ends_in_completion _ Hresponsive 0%nat None payload)
    as (invoked & err & result & Hwalk & Hnone).
  split; [|eauto].
  rewrite Hwalk, completions_app, Hnone. reflexivity.
Qed.

(** The fallback scenario of the specification. *)
Lemma fallback_trace :
  Middleware.trigger fallback "fallback" (VObj [])
  = [Middleware.Invoked 0; Middleware.Invoked 1;
     Middleware.Completion None (VStr "recovered")].
Proof. vm_compute. reflexivity. Qed.

Lemma trigger_completes_exactly_once_witness :
  Middleware.completions (Middleware.trigger fallback "fallback" (VObj []))
  = 1%nat.
Proof.
  apply (trigger_completes_exactly_once fallback "fallback" (VObj [])).
  change (Middleware.handlers_of fallback "fallback")
    with [not_found; recovered].
  repeat constructor; intros payload; discriminate.
Defined.

(** ** Further properties of the persistence handlers *)

(* A read that throws although the value is truthy, or although another of
   its properties was read. *)
Ltac impossible_read :=
  exfalso;
  match goal with
  | Ht : truthy ?v = true, Hg : get ?v ?k = Throw _ |- _ =>
      let Hx := fresh in
      destruct (get_truthy v k Ht) as [? Hx]; rewrite Hx in Hg; discriminate
  | Ho : get ?v _ = Ok _, Hg : get ?v ?k = Throw _ |- _ =>
      let Hx := fresh in
      destruct (get_defined v _ k _ Ho) as [? Hx]; rewrite Hx in Hg;
      discriminate
  end.


(** X2: a load changes the payload only when it terminates without an
    error.  After any run of the load handler the payload is the one it was
    given, or the run is the read followed by [done()]; the answer of
    [isAuthenticated] is never touched. *)
Theorem load_changes_payload_only_on_success (env : environment) (d : payload) :
  (fst (run (loadPlugin env) d) = d \/
   exists req, snd (run (loadPlugin env) d) = [Trigger "ajax" req; Done []]) /\
  isAuthenticated (fst (run (loadPlugin env) d)) = isAuthenticated d.
Proof.
  run_handler. unfold not.
  repeat case_step; try solve [impossible_read];
    (split; [|reflexivity]); try (left; reflexivity); right; eauto.
Qed.

(** X3: when the write completes with neither an error nor a response
    object, the save handler reads [status] from the missing object outside
    any [try]: the exception escapes, and neither the continue nor the
    terminate operation is called. *)
Theorem save_without_response_calls_nothing
    (env : environment) (d : payload) (err xhr e : value) :
  truthy (isAuthenticated d) = true ->
  strict_eq (navigator_onLine env) (VBool false) = false ->
  respond env "ajax:oauth2" (save_request d) = Some (err, xhr) ->
  truthy err = false ->
  get xhr "status" = Throw e ->
  run (savePlugin env) d
  = (d, [Trigger "ajax:oauth2" (save_request d); Uncaught e]) /\
  existsb (fun ev => is_next ev || is_done ev) (snd (run (savePlugin env) d))
  = false.
Proof.
  intros Hauth Hon Hcompletes Herr Hstatus.
  assert (Hrun : run (savePlugin env) d
                 = (d, [Trigger "ajax:oauth2" (save_request d); Uncaught e])).
  { run_handler. rewrite Hauth, Hon. cbn.
    replace (VObj _) with (save_request d)
      by (unfold save_request, concat; destruct (truthy (id d)); reflexivity).
    rewrite Hcompletes. cbn. rewrite Herr, Hstatus. reflexivity. }
  rewrite Hrun. split; reflexivity.
Qed.

Lemma save_without_response_calls_nothing_witness :
  run (savePlugin (online (Some (VNull, VUndefined)))) (notebook VUndefined true)
  = (notebook VUndefined true,
     [Trigger "ajax:oauth2" (save_request (notebook VUndefined true));
      Uncaught (TypeError "Cannot read property 'status' of undefined")]).
Proof.
  apply (save_without_response_calls_nothing
           (online (Some (VNull, VUndefined))) (notebook VUndefined true)
           VNull VUndefined
           (TypeError "Cannot read property 'status' of undefined"));
    reflexivity.
Defined.

(** X4: the handler of [persistence:authenticated] never calls the continue
    operation and never changes the payload, whatever the validation
    answers. *)
Theorem authenticated_never_continues (env : environment) (d : payload) :
  existsb is_next (snd (run (authenticatedPlugin env) d)) = false /\
  fst (run (authenticatedPlugin env) d) = d.
Proof.
  run_handler. fold validate_request.
  destruct (respond env "authenticate:oauth2:validate" validate_request)
    as [[verr vauth]|]; cbn; [|split; reflexivity].
  repeat case_step; split; reflexivity.
Qed.

(** X5: a validation that does not yield a user ends the
    [persistence:authenticated] trigger through the terminate operation.
    With an error, or with no [auth] object, the handler calls [done(err)];
    so an absent [auth] without an error terminates without an error and
    without an identity.  With an [auth] object whose response cannot be
    read or parsed, it calls [done] with the exception. *)
Theorem authenticated_without_user
    (env : environment) (d : payload) (verr vauth : value) :
  respond env "authenticate:oauth2:validate" validate_request
  = Some (verr, vauth) ->
  let sent := Trigger "authenticate:oauth2:validate" validate_request in
  (truthy verr = true \/ truthy vauth = false ->
   run (authenticatedPlugin env) d = (d, [sent; Done [verr]])) /\
  (forall e,
     truthy verr = false -> truthy vauth = true ->
     validation_content vauth = Throw e ->
     run (authenticatedPlugin env) d = (d, [sent; Done [e]])).
Proof.
  intros Hval sent. subst sent. split.
  - intros Hfail. run_handler. fold validate_request. rewrite Hval. cbn.
    destruct Hfail as [-> | ->]; cbn; [reflexivity|].
    destruct (truthy verr); reflexivity.
  - intros e Hverr Hvauth Hbody. run_handler. fold validate_request.
    rewrite Hval. cbn. rewrite Hverr, Hvauth. cbn.
    unfold validation_content, response_content in Hbody.
    destruct (get vauth "xhr") as [xhr|]; cbn.
    + destruct (get xhr "responseText") as [text|]; cbn.
      * rewrite Hbody. reflexivity.
      * injection Hbody as ->. reflexivity.
    + injection Hbody as ->. reflexivity.
Qed.

Lemma authenticated_without_user_witness :
  run (authenticatedPlugin (online (Some (VNull, VNull)))) (notebook VUndefined false)
  = (notebook VUndefined false,
     [Trigger "authenticate:oauth2:validate" validate_request; Done [VNull]]).
Proof.
  destruct (authenticated_without_user
              (online (Some (VNull, VNull))) (notebook VUndefined false)
              VNull VNull eq_refl) as (H & _).
  apply H. right. reflexivity.
Defined.

(** X6: when the validation response parses to a value without properties
    (the JSON text [null]), the handler of [persistence:authenticated] reads
    [id] from it outside the [try] block: the exception escapes and neither
    operation is called. *)
Theorem authenticated_null_user_calls_nothing
    (env : environment) (d : payload) (verr vauth xhr content e : value) :
  respond env "authenticate:oauth2:validate" validate_request
  = Some (verr, vauth) ->
  truthy verr = false -> truthy vauth = true ->
  get vauth "xhr" = Ok xhr ->
  response_content xhr = Ok content ->
  get content "id" = Throw e ->
  run (authenticatedPlugin env) d
  = (d, [Trigger "authenticate:oauth2:validate" validate_request; Uncaught e]).
Proof.
  intros Hval Hverr Hvauth Hxhr Hbody Hid. run_handler. fold validate_request.
  rewrite Hval. cbn. rewrite Hverr, Hvauth, Hxhr. cbn.
  unfold response_content in Hbody.
  destruct (get xhr "responseText") as [text|]; [|discriminate]. cbn.
  rewrite Hbody, Hid. reflexivity.
Qed.

Lemma authenticated_null_user_calls_nothing_witness :
  run (authenticatedPlugin (github "null")) (notebook VUndefined false)
  = (notebook VUndefined false,
     [Trigger "authenticate:oauth2:validate" validate_request;
      Uncaught (TypeError "Cannot read property 'id' of null")]).
Proof.
  apply (authenticated_null_user_calls_nothing
           (github "null") (notebook VUndefined false) VNull
           (VObj [("accessToken", VStr "token"); ("xhr", reply 200 "null")])
           (reply 200 "null") VNull
           (TypeError "Cannot read property 'id' of null"));
    reflexivity.
Defined.

(** X7: once the OAuth2 exchange has succeeded, authenticating is the
    authenticated check: the run of the [persistence:authenticate] handler
    is the exchange followed by the run of the [persistence:authenticated]
    handler. *)
Theorem authenticate_then_authenticated
    (env : environment) (d : payload) (err auth : value) :
  respond env "authenticate:oauth2" (oauth2_request env) = Some (err, auth) ->
  truthy err = false ->
  run (authenticatePlugin env) d
  = (fst (run (authenticatedPlugin env) d),
     Trigger "authenticate:oauth2" (oauth2_request env)
     :: snd (run (authenticatedPlugin env) d)).
Proof.
  intros Hex Herr. run_handler. fold (oauth2_request env). fold validate_request.
  rewrite Hex. cbn. rewrite Herr. cbn.
  destruct (respond env "authenticate:oauth2:validate" validate_request)
    as [[verr vauth]|]; cbn; [|reflexivity].
  repeat case_step; reflexivity.
Qed.

Lemma authenticate_then_authenticated_witness :
  let env := github "{'id':3,'login':'octocat'}" in
  let d := notebook VUndefined false in
  run (authenticatePlugin env) d
  = (fst (run (authenticatedPlugin env) d),
     Trigger "authenticate:oauth2" (oauth2_request env)
     :: snd (run (authenticatedPlugin env) d)).
Proof.
  cbv zeta.
  apply (authenticate_then_authenticated
           (github "{'id':3,'login':'octocat'}") (notebook VUndefined false)
           VNull (VObj [("accessToken", VStr "token")]));
    reflexivity.
Defined.



(** X9: when the validated user has no [login], the title of the identity
    is built from the text of [undefined]: the handler terminates with the
    title 'undefined @ Github'. *)
Theorem authenticated_without_login
    (env : environment) (d : payload) (verr vauth xhr content userId : value) :
  respond env "authenticate:oauth2:validate" validate_request
  = Some (verr, vauth) ->
  truthy verr = false -> truthy vauth = true ->
  get vauth "xhr" = Ok xhr ->
  response_content xhr = Ok content ->
  get content "id" = Ok userId ->
  get content "login" = Ok VUndefined ->
  run (authenticatedPlugin env) d
  = (d, [Trigger "authenticate:oauth2:validate" validate_request;
         Done [VNull;
               VObj [("userId", userId);
                     ("userTitle", VStr "undefined @ Github")]]]).
Proof.
  intros Hval Hverr Hvauth Hxhr Hbody Hid Hlogin. run_handler.
  fold validate_request. rewrite Hval. cbn. rewrite Hverr, Hvauth, Hxhr. cbn.
  unfold response_content in Hbody.
  destruct (get xhr "responseText") as [text|]; [|discriminate]. cbn.
  rewrite Hbody, Hid, Hlogin. reflexivity.
Qed.

Lemma authenticated_without_login_witness :
  run (authenticatedPlugin (github "{'id':3}")) (notebook VUndefined false)
  = (notebook VUndefined false,
     [Trigger "authenticate:oauth2:validate" validate_request;
      Done [VNull;
            VObj [("userId", VInt 3);
                  ("userTitle", VStr "undefined @ Github")]]]).
Proof.
  apply (authenticated_without_login
           (github "{'id':3}") (notebook VUndefined false) VNull
           (VObj [("accessToken", VStr "token"); ("xhr", reply 200 "{'id':3}")])
           (reply 200 "{'id':3}") (VObj [("id", VInt 3)]) (VInt 3));
    reflexivity.
Defined.

(** ** What the save handler writes, the load handler reads *)

Lemma escape_append (c : ascii) (s rest : string) :
  JSON.escape c s +:+ rest = JSON.escape c (s +:+ rest).
Proof.
  unfold JSON.escape.
  repeat match goal with
         | |- context [if ?b then _ else _] => destruct b
         end; reflexivity.
Qed.

(** A string literal, as [JSON.stringify] writes it, is read back by
    [JSON.parse] up to its closing quotation mark. *)
Lemma parse_chars_escaped (s rest : string) :
  JSON.parse_chars (JSON.escaped s +:+ String JSON.quote rest) = Some (s, rest).
Proof.
  induction s as [|c s IH].
  - reflexivity.
  - cbn [JSON.escaped]. rewrite escape_append.
    set (tail := JSON.escaped s +:+ String JSON.quote rest) in *.
    clearbody tail.
    destruct c as [[] [] [] [] [] [] [] []];
      match goal with
      | |- context [JSON.escape ?c tail] =>
          let e := eval vm_compute in (JSON.escape c tail) in
          change (JSON.escape c tail) with e
      end;
      unfold JSON.parse_chars; fold JSON.parse_chars;
      rewrite IH; reflexivity.
Qed.

Lemma append_associative (a b c : string) : (a +:+ b) +:+ c = a +:+ (b +:+ c).
Proof.
  induction a as [|x a IH]; [reflexivity|].
  change (String x ((a +:+ b) +:+ c) = String x (a +:+ (b +:+ c))).
  rewrite IH. reflexivity.
Qed.

Lemma append_empty (a : string) : a +:+ EmptyString = a.
Proof.
  induction a as [|x a IH]; [reflexivity|].
  change (String x (a +:+ EmptyString) = String x a). rewrite IH. reflexivity.
Qed.

(** One step of the reader at a quotation mark, at an opening brace and at
    the key of a member. *)
Lemma parse_value_at_quote (fuel : nat) (r : string) :
  JSON.parse_value (S fuel) (String "034" r)
  = match JSON.parse_chars r with
    | Some (str, rest) => Some (VStr str, rest)
    | None => None
    end.
Proof. reflexivity. Qed.

Lemma parse_value_at_brace (fuel : nat) (r : string) :
  JSON.parse_value (S fuel) (String "{" (String "034" r))
  = JSON.parse_members fuel (String "034" r) [].
Proof. reflexivity. Qed.

Lemma parse_members_at_quote (fuel : nat) (r : string)
    (acc : list (string * value)) :
  JSON.parse_members (S fuel) (String "034" r) acc
  = match JSON.parse_chars r with
    | Some (key, r) =>
        match JSON.skip_ws r with
        | String ":" r =>
            match JSON.parse_value fuel r with
            | Some (v, r) =>
                match JSON.skip_ws r with
                | String "," r => JSON.parse_members fuel r (set_prop key v acc)
                | String "}" r => Some (VObj (set_prop key v acc), r)
                | _ => None
                end
            | None => None
            end
        | _ => None
        end
    | None => None
    end.
Proof. reflexivity. Qed.

(** A string literal as the serializer writes it parses to the string. *)
Lemma parse_value_quoted (fuel : nat) (s rest : string) :
  JSON.parse_value (S fuel) (JSON.quoted s +:+ rest) = Some (VStr s, rest).
Proof.
  replace (JSON.quoted s +:+ rest)
    with (String "034" (JSON.escaped s +:+ String JSON.quote rest)).
  - rewrite parse_value_at_quote, parse_chars_escaped. reflexivity.
  - unfold JSON.quoted.
    change (String "034" (JSON.escaped s +:+ String JSON.quote rest)
            = String "034" ((JSON.escaped s +:+ String JSON.quote EmptyString)
                            +:+ rest)).
    rewrite append_associative. reflexivity.
Qed.

(** An object with one member as the serializer writes it parses to that
    object, when the text of the value parses to the value. *)
Lemma parse_value_member (fuel : nat) (k valtext rest : string) (v : value) :
  JSON.parse_value fuel (valtext +:+ String "}" rest) = Some (v, String "}" rest) ->
  JSON.parse_value (S (S fuel))
    (("{" +:+ (JSON.quoted k +:+ ":" +:+ valtext) +:+ "}") +:+ rest)
  = Some (VObj [(k, v)], rest).
Proof.
  intros Hval.
  replace (("{" +:+ (JSON.quoted k +:+ ":" +:+ valtext) +:+ "}") +:+ rest)
    with (String "{" (String "034"
            (JSON.escaped k +:+ String JSON.quote
               (String ":" (valtext +:+ String "}" rest))))).
  - rewrite parse_value_at_brace, parse_members_at_quote, parse_chars_escaped.
    change (JSON.skip_ws (String ":" (valtext +:+ String "}" rest)))
      with (String ":" (valtext +:+ String "}" rest)).
    cbv beta iota. rewrite Hval. cbv beta iota.
    reflexivity.
  - unfold JSON.quoted.
    change (String "{" (String "034"
              (JSON.escaped k +:+ String JSON.quote
                 (String ":" (valtext +:+ String "}" rest))))
            = String "{" (String "034"
                ((((JSON.escaped k +:+ String JSON.quote EmptyString)
                   +:+ String ":" valtext) +:+ String "}" EmptyString)
                 +:+ rest))).
    rewrite !append_associative. reflexivity.
Qed.

(** The document of a save parses back to itself, whatever the text. *)
Lemma saved_document_parses (s : string) :
  JSON.parse (JSON.stringify (gist_document (VStr s)))
  = Ok (gist_document (VStr s)).
Proof.
  unfold JSON.parse, JSON.stringify, gist_document.
  cbv [JSON.serialize JS.join]. cbv [to_string]. unfold JSON.parse_text.
  match goal with
  | |- context [JSON.parse_value (S (String.length ?T)) ?T] =>
      assert (Hfuel : exists f, String.length T = S (S (S (S (S (S f))))))
        by (eexists; reflexivity);
      destruct Hfuel as [f ->];
      rewrite <- (append_empty T)
  end.
  erewrite parse_value_member;
    [reflexivity
    |erewrite parse_value_member;
       [reflexivity
       |erewrite parse_value_member;
          [reflexivity|apply parse_value_quoted]]].
Qed.

(** X10: what the save handler writes, the load handler reads.  When the
    read answers with the very body a save of the text [s] sent (the [data]
    of its request), the load handler terminates without an error and with
    [s] as the payload's contents, whatever characters [s] holds; the body
    names no gist and no user, so [id] and [ownerId] end up undefined. *)
Theorem load_reads_what_save_writes
    (env : environment) (d saved : payload) (err xhr : value) (s : string) :
  truthy (id d) = true ->
  respond env "ajax" (load_request d) = Some (err, xhr) ->
  contents saved = VStr s ->
  get xhr "responseText" = get (save_request saved) "data" ->
  run (loadPlugin env) d
  = ({| id := VUndefined; ownerId := VUndefined; contents := VStr s;
        isAuthenticated := isAuthenticated d |},
     [Trigger "ajax" (load_request d); Done []]).
Proof.
  intros Hid Hcompletes Hs Hbody.
  assert (Hcontent : response_content xhr = Ok (gist_document (VStr s))).
  { unfold response_content. rewrite Hbody. unfold save_request. cbn.
    rewrite Hs. apply saved_document_parses. }
  rewrite (load_stored env d Hid err xhr Hcompletes _
             (VObj [("notebook.md", VObj [("content", VStr s)])])
             (VObj [("content", VStr s)]) Hcontent);
    reflexivity.
Qed.

Lemma load_reads_what_save_writes_witness :
  let saved :=
    {| id := VUndefined; ownerId := VUndefined;
       contents := VStr (dq "say 'hi' \ bye"); isAuthenticated := VBool true |} in
  let answer :=
    VObj [("status", VInt 200);
          ("responseText", JSON.stringify (gist_document (contents saved)))] in
  run (loadPlugin (online (Some (VNull, answer)))) (notebook (VStr "g0") true)
  = ({| id := VUndefined; ownerId := VUndefined;
        contents := VStr (dq "say 'hi' \ bye");
        isAuthenticated := VBool true |},
     [Trigger "ajax" (load_request (notebook (VStr "g0") true)); Done []]).
Proof.
  cbv zeta.
  apply (load_reads_what_save_writes
           (online (Some (VNull,
              VObj [("status", VInt 200);
                    ("responseText",
                     JSON.stringify
                       (gist_document (VStr (dq "say 'hi' \ bye"))))])))
           (notebook (VStr "g0") true)
           {| id := VUndefined; ownerId := VUndefined;
              contents := VStr (dq "say 'hi' \ bye");
              isAuthenticated := VBool true |}
           VNull
           (VObj [("status", VInt 200);
                  ("responseText",
                   JSON.stringify
                     (gist_document (VStr (dq "say 'hi' \ bye"))))])
           (dq "say 'hi' \ bye"));
    reflexivity.
Defined.

(** ** The proxy of the development server *)

Section Proxy.

Import Server.

Lemma match_at_literal (p : string) (re : list atom) (final : string -> bool)
    (s : string) :
  (exists r, match_at (literal p ++ re)%list final s = Some r) <->
  exists s', s = p +:+ s' /\ exists r, match_at re final s' = Some r.
Proof.
  revert s. induction p as [|c p IH]; intros s.
  - cbn. split; [intros [r Hr]; exists s; eauto|].
    intros (s' & -> & Hr). exact Hr.
  - cbn [literal app match_at]. destruct s as [|x s].
    + split; [intros [r Hr]; discriminate|].
      intros (s' & Hs & _). discriminate.
    + destruct (Ascii.eqb_spec x c) as [->|Hne].
      * rewrite IH. split.
        -- intros (s' & -> & Hr). exists s'. split; [reflexivity|exact Hr].
        -- intros (s' & Hs & Hr). exists s'.
           change (String c s = String c (p +:+ s')) in Hs.
           injection Hs as ->. split; [reflexivity|exact Hr].
      * split; [intros [r Hr]; discriminate|].
        intros (s' & Hs & _).
        change (String x s = String c (p +:+ s')) in Hs.
        injection Hs as Hx _. contradiction.
Qed.

(** The test of the regular expression, spelt out. *)
Lemma test_access_token_url_spec (target : string) :
  test_access_token_url target = true <-> token_endpoint target.
Proof.
  unfold test_access_token_url, token_endpoint.
  assert (Hsome : match match_at access_token_url anywhere target with
                  | Some _ => true | None => false end = true
                  <-> exists r, match_at access_token_url anywhere target = Some r).
  { destruct (match_at access_token_url anywhere target) as [r|].
    - split; eauto.
    - split; [discriminate|intros [r Hr]; discriminate]. }
  rewrite Hsome. clear Hsome. unfold access_token_url.
  set (re := (literal "://github" ++ [Any]
              ++ literal "com/login/oauth/access_token")%list).
  assert (Hre : forall s,
             (exists r, match_at re anywhere s = Some r) <->
             exists c rest, line_terminator c = false /\
               s = "://github" +:+ String c
                     ("com/login/oauth/access_token" +:+ rest)).
  { intros s. subst re. rewrite match_at_literal. split.
    - intros (s2 & -> & r2 & Hr2).
      cbn [app match_at] in Hr2. destruct s2 as [|c s2]; [discriminate|].
      destruct (line_terminator c) eqn:Hc; [discriminate|].
      assert (Hlit : exists r, match_at
                (literal "com/login/oauth/access_token" ++ [])%list anywhere s2
                = Some r) by (rewrite app_nil_r; eauto).
      apply match_at_literal in Hlit as (rest & -> & _).
      exists c, rest. split; [exact Hc|reflexivity].
    - intros (c & rest & Hc & ->). eexists. split; [reflexivity|].
      cbn [app match_at]. rewrite Hc.
      assert (Hlit : exists r, match_at
                (literal "com/login/oauth/access_token" ++ [])%list anywhere
                ("com/login/oauth/access_token" +:+ rest) = Some r).
      { apply match_at_literal. exists rest. split; [reflexivity|].
        exists rest. reflexivity. }
      rewrite app_nil_r in Hlit. exact Hlit. }
  clearbody re.
  change (literal "http" ++ [Optional "s"] ++ re)%list
    with (literal "http" ++ Optional "s" :: re)%list.
  rewrite match_at_literal. split.
  - intros (s1 & -> & r & Hr). cbn [match_at] in Hr.
    destruct s1 as [|x s1].
    + destruct (proj1 (Hre EmptyString) (ex_intro _ r Hr))
        as (c & rest & _ & Hs).
      discriminate.
    + destruct (Ascii.eqb_spec x "s") as [->|Hne].
      * destruct (match_at re anywhere s1) as [r1|] eqn:Hs1.
        -- destruct (proj1 (Hre s1) (ex_intro _ r1 Hs1)) as (c & rest & Hc & ->).
           exists "https", c, rest. repeat split; auto.
        -- destruct (proj1 (Hre (String "s" s1)) (ex_intro _ r Hr))
             as (c & rest & _ & Hs). discriminate.
      * destruct (proj1 (Hre (String x s1)) (ex_intro _ r Hr))
          as (c & rest & Hc & ->).
        exists "http", c, rest. repeat split; auto.
  - intros (scheme & c & rest & Hscheme & Hc & ->).
    destruct (proj2 (Hre ("://github" +:+ String c
                            ("com/login/oauth/access_token" +:+ rest)))
                (ex_intro _ c (ex_intro _ rest (conj Hc eq_refl))))
      as [r Hr].
    destruct Hscheme as [-> | ->].
    + exists (String ":" ("//github" +:+ String c
                ("com/login/oauth/access_token" +:+ rest))).
      split; [reflexivity|]. exists r. cbn [match_at].
      change (Ascii.eqb ":" "s") with false. cbv iota. exact Hr.
    + exists (String "s" ("://github" +:+ String c
                ("com/login/oauth/access_token" +:+ rest))).
      split; [reflexivity|]. exists r. cbn [match_at].
      change (Ascii.eqb "s" "s") with true. cbv iota.
      rewrite Hr. reflexivity.
Qed.

Lemma substr_split (n : nat) (s : string) :
  s = substr 0 n s +:+ substr_from n s.
Proof.
  revert s. induction n as [|n IH]; intros [|c s]; try reflexivity.
  change (String c s = String c (substr 0 n s +:+ substr_from n s)).
  rewrite <- IH. reflexivity.
Qed.

Lemma proxy_on_target (secret : value) (target : string) :
  proxy secret ("/proxy/" +:+ target)
  = Forward (if test_access_token_url target
             then ((target +:+ (if indexOf "?" target >? -1 then "&" else "?"))
                   +:+ "client_secret=")
                  +:+ encodeURIComponent secret
             else target).
Proof.
  unfold proxy.
  replace (substr 0 7 ("/proxy/" +:+ target)) with "/proxy/"
    by (destruct target; reflexivity).
  reflexivity.
Qed.

Lemma occurrences_append (c : ascii) (a b : string) :
  occurrences c (a +:+ b) = (occurrences c a + occurrences c b)%nat.
Proof.
  induction a as [|x a IH]; [reflexivity|].
  change (occurrences c (String x (a +:+ b))
          = (occurrences c (String x a) + occurrences c b)%nat).
  cbn [occurrences]. rewrite IH. destruct (Ascii.eqb x c); reflexivity.
Qed.

(** [indexOf] finds a character exactly when the character occurs. *)
Lemma indexOf_occurrences (c : ascii) (s : string) :
  (indexOf c s >? -1) = (0 <? occurrences c s)%nat.
Proof.
  assert (H : (-1 <= indexOf c s) /\
              (indexOf c s = -1 <-> occurrences c s = 0%nat)).
  { induction s as [|x s [IHge IHiff]]; cbn [indexOf occurrences].
    - split; [reflexivity|]. split; reflexivity.
    - destruct (Ascii.eqb x c).
      + split; [discriminate|]. split; discriminate.
      + destruct (Z.ltb_spec (indexOf c s) 0) as [Hlt|Hge].
        * split; [reflexivity|]. split; [intros _|reflexivity].
          apply IHiff. apply Z.le_antisymm; [|exact IHge].
          apply Z.lt_succ_r. exact Hlt.
        * split.
          -- apply Z.le_trans with 0; [discriminate|].
             apply Z.add_nonneg_nonneg; [exact Hge|discriminate].
          -- split.
             ++ intros Heq. exfalso.
                assert (H0 : 0 <= indexOf c s + 1)
                  by (apply Z.add_nonneg_nonneg; [exact Hge|discriminate]).
                rewrite Heq in H0. apply H0. reflexivity.
             ++ intros Hocc. apply IHiff in Hocc. rewrite Hocc in Hge.
                exfalso. apply Hge. reflexivity. }
  destruct H as [Hge Hiff].
  destruct (occurrences c s) as [|n] eqn:Hocc.
  - rewrite (proj2 Hiff eq_refl). reflexivity.
  - cbn. apply Z.gtb_lt. apply Z.le_neq. split; [exact Hge|].
    intros Heq. symmetry in Heq. apply Hiff in Heq. discriminate.
Qed.

Lemma encode_step (x : ascii) (r : string) :
  encode (String x r) = encode (String x EmptyString) +:+ encode r.
Proof.
  destruct x as [[] [] [] [] [] [] [] []]; reflexivity.
Qed.

(** The escaped text holds none of the characters that structure a query. *)
Lemma encode_is_plain (c : ascii) (s : string) :
  c = "&"%char \/ c = "="%char \/ c = "?"%char \/ c = "#"%char ->
  occurrences c (encode s) = 0%nat.
Proof.
  intros Hc. induction s as [|x s IH]; [reflexivity|].
  rewrite encode_step, occurrences_append, IH, Nat.add_0_r.
  destruct Hc as [-> | [-> | [-> | ->]]];
    destruct x as [[] [] [] [] [] [] [] []]; reflexivity.
Qed.

(** X11: the proxy handler serves exactly the request URLs that start
    with [/proxy/]; every other URL, also one too short to hold the prefix,
    is passed on.  What it requests upstream starts with the rest of the
    request URL: the target is never altered, only appended to. *)
Theorem proxy_forwards_the_target (secret : value) (url : string) :
  (proxy secret url = PassOn <-> forall target, url <> "/proxy/" +:+ target) /\
  (forall target,
     url = "/proxy/" +:+ target ->
     exists suffix, proxy secret url = Forward (target +:+ suffix)).
Proof.
  split.
  - unfold proxy. destruct (String.eqb_spec (substr 0 7 url) "/proxy/") as [Heq|Hne].
    + split; [discriminate|]. intros Hnone. exfalso.
      apply (Hnone (substr_from 7 url)). rewrite <- Heq. apply substr_split.
    + split; [|reflexivity]. intros _ target ->. apply Hne.
      destruct target; reflexivity.
  - intros target ->. rewrite proxy_on_target.
    destruct (test_access_token_url target).
    + eexists. rewrite !append_associative. reflexivity.
    + exists EmptyString. rewrite append_empty. reflexivity.
Qed.

Lemma proxy_forwards_the_target_witness :
  exists suffix,
    proxy (VStr "s3cret") "/proxy/https://api.github.com/gists?page=2"
    = Forward ("https://api.github.com/gists?page=2" +:+ suffix).
Proof.
  destruct (proxy_forwards_the_target (VStr "s3cret")
              "/proxy/https://api.github.com/gists?page=2") as [_ H].
  apply H. reflexivity.
Defined.

Lemma proxy_on_endpoint (secret : value) (target : string) :
  token_endpoint target ->
  proxy secret ("/proxy/" +:+ target)
  = Forward (target
             +:+ (if (0 <? occurrences "?" target)%nat then "&" else "?")
             +:+ "client_secret=" +:+ encodeURIComponent secret).
Proof.
  intros Hshape. rewrite proxy_on_target.
  apply test_access_token_url_spec in Hshape. rewrite Hshape.
  rewrite indexOf_occurrences, !append_associative. reflexivity.
Qed.

(** X12: the client secret goes to the access-token endpoint and nowhere
    else.  A target gets the query parameter [client_secret] (after [&]
    when it already holds a question mark, after [?] otherwise) exactly when
    it is http or https, host [github], any one character, [com], and a path
    starting with [/login/oauth/access_token]; every other target is
    requested as it is.  The character before [com] is not held to be a
    dot. *)
Theorem proxy_attaches_secret (secret : value) (target : string) :
  (token_endpoint target ->
   proxy secret ("/proxy/" +:+ target)
   = Forward (target
              +:+ (if (0 <? occurrences "?" target)%nat then "&" else "?")
              +:+ "client_secret=" +:+ encodeURIComponent secret)) /\
  (~ token_endpoint target ->
   proxy secret ("/proxy/" +:+ target) = Forward target).
Proof.
  split; intros Hshape; [apply proxy_on_endpoint; exact Hshape|].
  rewrite proxy_on_target.
  destruct (test_access_token_url target) eqn:Htest; [|reflexivity].
  exfalso. apply Hshape. apply test_access_token_url_spec. exact Htest.
Qed.

Lemma proxy_attaches_secret_witness :
  proxy (VStr "s3cr&t") "/proxy/http://github-com/login/oauth/access_token?code=1"
  = Forward
      "http://github-com/login/oauth/access_token?code=1&client_secret=s3cr%26t".
Proof.
  destruct (proxy_attaches_secret (VStr "s3cr&t")
              "http://github-com/login/oauth/access_token?code=1") as [H _].
  apply H. exists "http", "-"%char, "?code=1". repeat split. left. reflexivity.
Defined.

(** X13: whatever characters the secret holds, what the proxy appends to an
    access-token target is one query parameter: it holds one [=], one
    separator ([?] when the target has no question mark, [&] when it has
    one) and no [#]. *)
Theorem proxy_secret_is_one_parameter (secret : value) (target : string) :
  token_endpoint target ->
  exists suffix,
    proxy secret ("/proxy/" +:+ target) = Forward (target +:+ suffix) /\
    occurrences "=" suffix = 1%nat /\
    occurrences "#" suffix = 0%nat /\
    occurrences "?" suffix = (if (0 <? occurrences "?" target)%nat then 0 else 1)%nat /\
    occurrences "&" suffix = (if (0 <? occurrences "?" target)%nat then 1 else 0)%nat.
Proof.
  intros Hshape.
  exists ((if (0 <? occurrences "?" target)%nat then "&" else "?")
          +:+ "client_secret=" +:+ encodeURIComponent secret).
  split; [exact (proxy_on_endpoint secret target Hshape)|].
  unfold encodeURIComponent.
  rewrite !occurrences_append, !encode_is_plain by auto.
  destruct (0 <? occurrences "?" target)%nat; repeat split; reflexivity.
Qed.

Lemma proxy_secret_is_one_parameter_witness :
  exists suffix,
    proxy (VStr "a=b&c#d?") "/proxy/https://github.com/login/oauth/access_token"
    = Forward ("https://github.com/login/oauth/access_token" +:+ suffix) /\
    occurrences "=" suffix = 1%nat /\
    occurrences "#" suffix = 0%nat /\
    occurrences "?" suffix = 1%nat /\
    occurrences "&" suffix = 0%nat.
Proof.
  apply (proxy_secret_is_one_parameter (VStr "a=b&c#d?")
           "https://github.com/login/oauth/access_token").
  exists "https", "."%char, EmptyString. repeat split. right. reflexivity.
Defined.

End Proxy.

(** ** The build targets of the Gruntfile *)

Section Targets.

Import Server Build.

Lemma length_append (a b : string) :
  String.length (a +:+ b) = (String.length a + String.length b)%nat.
Proof.
  induction a as [|x a IH]; [reflexivity|].
  change (S (String.length (a +:+ b)) = S (String.length a + String.length b)).
  rewrite IH. reflexivity.
Qed.

Lemma append_cancel_right (p x y : string) : x +:+ p = y +:+ p -> x = y.
Proof.
  revert y. induction x as [|a x IH]; intros [|b y] H.
  - reflexivity.
  - apply (f_equal String.length) in H.
    rewrite !length_append in H. cbn [String.length] in H. lia.
  - apply (f_equal String.length) in H.
    rewrite !length_append in H. cbn [String.length] in H. lia.
  - change (String a (x +:+ p) = String b (y +:+ p)) in H.
    injection H as -> H. rewrite (IH y H). reflexivity.
Qed.

(** *** Objects as association lists *)

Lemma lookup_set_prop_same (k : string) (v : value) (l : list (string * value)) :
  lookup_prop k (set_prop k v l) = v.
Proof.
  induction l as [|[k' v'] l IH]; cbn.
  - rewrite String.eqb_refl. reflexivity.
  - destruct (String.eqb_spec k k') as [->|Hne]; cbn.
    + rewrite String.eqb_refl. reflexivity.
    + destruct (String.eqb_spec k k'); [contradiction|]. exact IH.
Qed.

Lemma lookup_set_prop_other (k k' : string) (v : value)
    (l : list (string * value)) :
  k <> k' -> lookup_prop k (set_prop k' v l) = lookup_prop k l.
Proof.
  intros Hne. induction l as [|[k0 v0] l IH]; cbn.
  - destruct (String.eqb_spec k k'); [contradiction|reflexivity].
  - destruct (String.eqb_spec k' k0) as [->|Hne0]; cbn.
    + destruct (String.eqb_spec k k0); [contradiction|reflexivity].
    + destruct (String.eqb_spec k k0); [reflexivity|exact IH].
Qed.

Lemma set_prop_fresh (k : string) (v : value) (l : list (string * value)) :
  ~ In k (keys l) -> set_prop k v l = (l ++ [(k, v)])%list.
Proof.
  induction l as [|[k' v'] l IH]; cbn; intros Hfresh; [reflexivity|].
  destruct (String.eqb_spec k k') as [->|Hne].
  - exfalso. apply Hfresh. left. reflexivity.
  - rewrite IH; [reflexivity|]. intros Hin. apply Hfresh. right. exact Hin.
Qed.

Lemma keys_set_prop (k k' : string) (v : value) (l : list (string * value)) :
  In k' (keys (set_prop k v l)) <-> k' = k \/ In k' (keys l).
Proof.
  induction l as [|[k0 v0] l IH]; cbn.
  - intuition congruence.
  - destruct (String.eqb_spec k k0) as [->|Hne]; cbn.
    + intuition congruence.
    + rewrite IH. intuition congruence.
Qed.

Lemma NoDup_set_prop (k : string) (v : value) (l : list (string * value)) :
  List.NoDup (keys l) -> List.NoDup (keys (set_prop k v l)).
Proof.
  induction l as [|[k0 v0] l IH]; cbn; intros Hnd.
  - constructor; [intros []|constructor].
  - apply List.NoDup_cons_iff in Hnd as [Hnotin Hnd].
    destruct (String.eqb_spec k k0) as [->|Hne]; cbn.
    + apply List.NoDup_cons_iff. split; assumption.
    + apply List.NoDup_cons_iff. split; [|apply IH; exact Hnd].
      intros Hin. apply keys_set_prop in Hin as [Heq|Hin]; [|contradiction].
      apply Hne. symmetry. exact Heq.
Qed.

Lemma lookup_append (k : string) (a b : list (string * value)) :
  ~ In k (keys a) -> lookup_prop k (a ++ b)%list = lookup_prop k b.
Proof.
  induction a as [|[k' v'] a IH]; cbn; intros Hfresh; [reflexivity|].
  destruct (String.eqb_spec k k') as [->|Hne].
  - exfalso. apply Hfresh. left. reflexivity.
  - apply IH. intros Hin. apply Hfresh. right. exact Hin.
Qed.

(** [_.extend] onto an object with other keys appends the source. *)
Lemma extend_disjoint (src obj : list (string * value)) :
  List.NoDup (keys src) ->
  (forall k, In k (keys src) -> ~ In k (keys obj)) ->
  extend obj src = (obj ++ src)%list.
Proof.
  unfold extend. revert obj.
  induction src as [|[k v] src IH]; intros obj Hnd Hdisjoint; cbn.
  - rewrite app_nil_r. reflexivity.
  - cbn in Hnd. apply List.NoDup_cons_iff in Hnd as [Hnotin Hnd].
    rewrite set_prop_fresh by (apply Hdisjoint; left; reflexivity).
    rewrite IH; [rewrite <- app_assoc; reflexivity|exact Hnd|].
    intros k' Hin Hin'. unfold keys in Hin'. rewrite map_app in Hin'.
    apply in_app_or in Hin' as [Hin'|[Heq|[]]].
    + apply (Hdisjoint k'); [right; exact Hin|exact Hin'].
    + cbn in Heq. subst k'. contradiction.
Qed.

(** *** The filter on file names *)

Lemma match_js (s r : string) :
  match_at jsRegex at_end s = Some r <-> s = ".js" /\ r = EmptyString.
Proof.
  unfold jsRegex, at_end. cbn [literal match_at]. split.
  - destruct s as [|a [|b [|c s]]]; try discriminate.
    + destruct (Ascii.eqb a "."); discriminate.
    + destruct (Ascii.eqb a "."); [|discriminate].
      destruct (Ascii.eqb b "j"); discriminate.
    + destruct (Ascii.eqb_spec a ".") as [->|]; [|discriminate].
      destruct (Ascii.eqb_spec b "j") as [->|]; [|discriminate].
      destruct (Ascii.eqb_spec c "s") as [->|]; [|discriminate].
      destruct (String.eqb_spec s EmptyString) as [->|]; [|discriminate].
      intros [= <-]. split; reflexivity.
  - intros [-> ->]. reflexivity.
Qed.

Lemma search_js_suffix (stem : string) :
  search jsRegex at_end (stem +:+ ".js") = Some (stem, EmptyString).
Proof.
  induction stem as [|c stem IH]; [reflexivity|].
  change (String c stem +:+ ".js") with (String c (stem +:+ ".js")).
  cbn [search]. rewrite IH.
  destruct (match_at jsRegex at_end (String c (stem +:+ ".js"))) as [r|] eqn:Hm;
    [|reflexivity].
  apply match_js in Hm as [Hs _]. apply (f_equal String.length) in Hs.
  cbn [String.length] in Hs. rewrite length_append in Hs.
  cbn [String.length] in Hs. lia.
Qed.

Lemma search_js_found (f before rest : string) :
  search jsRegex at_end f = Some (before, rest) ->
  f = before +:+ ".js" /\ rest = EmptyString.
Proof.
  revert before. induction f as [|c f IH]; intros before; cbn [search].
  - destruct (match_at jsRegex at_end EmptyString) as [r|] eqn:Hm;
      [|discriminate].
    apply match_js in Hm as [Hs _]. discriminate.
  - destruct (match_at jsRegex at_end (String c f)) as [r|] eqn:Hm.
    + apply match_js in Hm as [-> ->]. intros [= <- <-]. split; reflexivity.
    + destruct (search jsRegex at_end f) as [[b r]|]; [|discriminate].
      intros [= <- <-]. destruct (IH b eq_refl) as [-> ->].
      split; reflexivity.
Qed.

(** The filter accepts the names that end in [.js], and the name without
    that ending is what is left of them. *)
Lemma jsRegex_test_spec (f : string) :
  jsRegex_test f = true <-> exists stem, f = stem +:+ ".js".
Proof.
  unfold jsRegex_test. split.
  - destruct (search jsRegex at_end f) as [[b r]|] eqn:Hs; [|discriminate].
    intros _. exists b. apply (search_js_found f b r Hs).
  - intros [stem ->]. rewrite search_js_suffix. reflexivity.
Qed.

Lemma jsRegex_remove_suffix (stem : string) :
  jsRegex_remove (stem +:+ ".js") = stem.
Proof.
  unfold jsRegex_remove. rewrite search_js_suffix. apply append_empty.
Qed.

(** *** The targets *)

Variable dirname : string.
Variable NODE_ENV : value.
Variable camelize : string -> string.

Abbreviation plugin := (Build.plugin dirname NODE_ENV camelize).
Abbreviation browserifyPlugins :=
  (Build.browserifyPlugins dirname NODE_ENV camelize).
Abbreviation browserify := (Build.browserify dirname NODE_ENV camelize).

Lemma plugin_keys (acc : list (string * value)) (f : string) :
  List.NoDup (keys acc) ->
  (forall k, In k (keys acc) -> exists x, k = x +:+ "Plugin") ->
  List.NoDup (keys (plugin acc f)) /\
  (forall k, In k (keys (plugin acc f)) -> exists x, k = x +:+ "Plugin").
Proof.
  intros Hnd Hkeys. unfold Build.plugin.
  destruct (jsRegex_test f); cbn [negb]; [|split; assumption].
  split; [apply NoDup_set_prop; exact Hnd|].
  intros k Hin. apply keys_set_prop in Hin as [-> | Hin]; eauto.
Qed.

Lemma browserifyPlugins_keys (files : list string) :
  List.NoDup (keys (browserifyPlugins files)) /\
  (forall k, In k (keys (browserifyPlugins files)) ->
             exists x, k = x +:+ "Plugin").
Proof.
  unfold Build.browserifyPlugins.
  assert (H : forall acc,
             List.NoDup (keys acc) ->
             (forall k, In k (keys acc) -> exists x, k = x +:+ "Plugin") ->
             List.NoDup (keys (fold_left plugin files acc)) /\
             (forall k, In k (keys (fold_left plugin files acc)) ->
                        exists x, k = x +:+ "Plugin")).
  { induction files as [|f files IH]; intros acc Hnd Hkeys; cbn [fold_left].
    - split; assumption.
    - destruct (plugin_keys acc f Hnd Hkeys) as [Hnd' Hkeys'].
      apply IH; assumption. }
  apply H; [constructor|intros k []].
Qed.

Lemma not_a_plugin_name (x : string) :
  ~ In (x +:+ "Plugin") ["application"; "embed"; "test"].
Proof.
  intros Hin.
  assert (Hlen : forall k, x +:+ "Plugin" = k ->
                           (6 <= String.length k)%nat).
  { intros k <-. rewrite length_append. cbn [String.length]. lia. }
  destruct Hin as [H | [H | [H | []]]]; symmetry in H.
  - pose proof (f_equal String.length H) as Hl.
    rewrite length_append in Hl.
    destruct x as [|c1 [|c2 [|c3 [|c4 [|c5 [|c6 x]]]]]];
      cbn [String.length] in Hl; try lia.
    vm_compute in H. discriminate H.
  - apply Hlen in H. cbn [String.length] in H. lia.
  - apply Hlen in H. cbn [String.length] in H. lia.
Qed.

Lemma browserify_keeps_fixed_targets_aux (files : list string) :
  browserify files
  = ([("application", Build.application NODE_ENV);
      ("embed", Build.embed NODE_ENV);
      ("test", Build.test dirname NODE_ENV)]
     ++ browserifyPlugins files)%list.
Proof.
  unfold Build.browserify.
  destruct (browserifyPlugins_keys files) as [Hnd Hkeys].
  apply extend_disjoint; [exact Hnd|].
  intros k Hin Hfixed. destruct (Hkeys k Hin) as [x ->].
  exact (not_a_plugin_name x Hfixed).
Qed.

(** X14: the plugin targets never replace a fixed target.  Whatever the
    plugin directory holds and whatever [camelize] answers, the browserify
    configuration is the [application], [embed] and [test] targets followed
    by the plugin targets, whose names all end in [Plugin] and differ from
    one another. *)
Theorem browserify_keeps_fixed_targets (files : list string) :
  browserify files
  = ([("application", Build.application NODE_ENV);
      ("embed", Build.embed NODE_ENV);
      ("test", Build.test dirname NODE_ENV)]
     ++ browserifyPlugins files)%list /\
  List.NoDup (keys (browserifyPlugins files)) /\
  (forall k, In k (keys (browserifyPlugins files)) ->
             exists x, k = x +:+ "Plugin").
Proof.
  split; [apply browserify_keeps_fixed_targets_aux|].
  apply browserifyPlugins_keys.
Qed.

Lemma Forall_set_prop (P : string * value -> Prop) (k : string) (v : value)
    (l : list (string * value)) :
  P (k, v) -> List.Forall P l -> List.Forall P (set_prop k v l).
Proof.
  intros Hp. induction 1 as [|[k' v'] l Hx Hl IH]; cbn.
  - constructor; [exact Hp|constructor].
  - destruct (String.eqb k k'); constructor; assumption.
Qed.

Lemma Forall_browserifyPlugins (P : string * value -> Prop)
    (files : list string) :
  (forall f name, P (name,
      VObj [("src", VStr ((Build.PLUGIN_DIR dirname +:+ "/") +:+ f));
            ("dest", VStr ("build/plugins/" +:+ f));
            ("options", VObj [("debug", VBool (Build.DEV NODE_ENV));
                              ("transform", Build.browserifyTransform NODE_ENV);
                              ("standalone", VStr name)])])) ->
  List.Forall P (browserifyPlugins files).
Proof.
  intros Hp. unfold Build.browserifyPlugins.
  assert (H : forall acc, List.Forall P acc ->
                          List.Forall P (fold_left plugin files acc)).
  { induction files as [|f files IH]; intros acc Hacc; cbn [fold_left];
      [exact Hacc|].
    apply IH. unfold Build.plugin.
    destruct (jsRegex_test f); cbn [negb]; [|exact Hacc].
    apply Forall_set_prop; [apply Hp|exact Hacc]. }
  apply H. constructor.
Qed.

(** X15: every browserify target is built the same way, and minified
    exactly in production.  When [NODE_ENV] is 'production', every target of
    the configuration (fixed or plugin) has [debug] false and the transforms
    envify and uglifyify; otherwise every target has [debug] true and the
    transform envify alone. *)
Theorem browserify_targets_share_options (files : list string) :
  (NODE_ENV = VStr "production" ->
   List.Forall
     (target_options (VBool false) (VArr [VStr "envify"; VStr "uglifyify"]))
     (browserify files)) /\
  (NODE_ENV <> VStr "production" ->
   List.Forall (target_options (VBool true) (VArr [VStr "envify"]))
     (browserify files)).
Proof.
  assert (Hdev : Build.DEV NODE_ENV = false <-> NODE_ENV = VStr "production").
  { unfold Build.DEV, strict_ne. destruct NODE_ENV; cbn; try (split; discriminate).
    destruct (String.eqb_spec s "production") as [->|Hne]; cbn.
    - split; reflexivity.
    - split; [discriminate|]. intros [= ->]. contradiction. }
  rewrite browserify_keeps_fixed_targets_aux.
  split; intros Henv.
  - apply Hdev in Henv.
    apply Forall_app. split.
    + unfold Build.application, Build.embed, Build.test,
        Build.browserifyTransform. rewrite Henv.
      repeat constructor.
    + apply Forall_browserifyPlugins. intros f name.
      unfold Build.browserifyTransform. rewrite Henv. split; reflexivity.
  - assert (Htrue : Build.DEV NODE_ENV = true).
    { destruct (Build.DEV NODE_ENV) eqn:Hd; [reflexivity|].
      exfalso. apply Henv. apply Hdev. reflexivity. }
    apply Forall_app. split.
    + unfold Build.application, Build.embed, Build.test,
        Build.browserifyTransform. rewrite Htrue.
      repeat constructor.
    + apply Forall_browserifyPlugins. intros f name.
      unfold Build.browserifyTransform. rewrite Htrue. split; reflexivity.
Qed.

(** X16: only the files whose names end in [.js] become targets.  A file
    of the plugin directory with any other name (a directory, a stylesheet,
    a name that merely holds [.js] inside) changes nothing in the
    configuration. *)
Theorem browserify_skips_other_files (before after : list string) (f : string) :
  (forall stem, f <> stem +:+ ".js") ->
  browserify (before ++ f :: after) = browserify (before ++ after).
Proof.
  intros Hother. unfold Build.browserify, Build.browserifyPlugins.
  rewrite !fold_left_app. cbn [fold_left].
  assert (Hskip : plugin (fold_left plugin before []) f
                  = fold_left plugin before []).
  { unfold Build.plugin. destruct (jsRegex_test f) eqn:Htest; [|reflexivity].
    apply jsRegex_test_spec in Htest as [stem ->].
    exfalso. exact (Hother stem eq_refl). }
  rewrite Hskip. reflexivity.
Qed.

Lemma lookup_plugin_other (acc : list (string * value)) (g name : string) :
  (forall stem, g = stem +:+ ".js" -> camelize stem +:+ "Plugin" <> name) ->
  lookup_prop name (plugin acc g) = lookup_prop name acc.
Proof.
  intros Hother. unfold Build.plugin.
  destruct (jsRegex_test g) eqn:Htest; cbn [negb]; [|reflexivity].
  apply jsRegex_test_spec in Htest as [stem ->].
  rewrite jsRegex_remove_suffix.
  apply lookup_set_prop_other. intros Heq. symmetry in Heq.
  exact (Hother stem eq_refl Heq).
Qed.

(** X17: the target of a plugin file.  For a file [stem.js] of the plugin
    directory, the configuration holds under the name
    [camelize(stem) + 'Plugin'] the target that reads the file from the
    plugin directory, writes it to [build/plugins] under the same file name
    and exports it under that name, provided no file later in the listing
    camelizes to the same name; files earlier in the listing with that name
    are overwritten. *)
Theorem browserify_builds_plugin_file
    (before after : list string) (stem : string) :
  (forall stem', In (stem' +:+ ".js") after -> camelize stem' <> camelize stem) ->
  lookup_prop (camelize stem +:+ "Plugin")
    (browserify (before ++ (stem +:+ ".js") :: after))
  = VObj [("src", VStr (dirname +:+ "/public/scripts/plugins/"
                        +:+ stem +:+ ".js"));
          ("dest", VStr ("build/plugins/" +:+ stem +:+ ".js"));
          ("options",
           VObj [("debug", VBool (Build.DEV NODE_ENV));
                 ("transform", Build.browserifyTransform NODE_ENV);
                 ("standalone", VStr (camelize stem +:+ "Plugin"))])].
Proof.
  intros Hlast. rewrite browserify_keeps_fixed_targets_aux.
  rewrite lookup_append
    by (change (keys _) with ["application"; "embed"; "test"];
        apply not_a_plugin_name).
  unfold Build.browserifyPlugins. rewrite fold_left_app. cbn [fold_left].
  set (acc := fold_left plugin before []). clearbody acc.
  assert (Hafter : forall start,
             lookup_prop (camelize stem +:+ "Plugin")
               (fold_left plugin after start)
             = lookup_prop (camelize stem +:+ "Plugin") start).
  { induction after as [|g after' IH]; intros start; cbn [fold_left];
      [reflexivity|].
    rewrite IH by (intros stem' Hin; apply Hlast; right; exact Hin).
    apply lookup_plugin_other. intros stem' -> Heq.
    apply (Hlast stem'); [left; reflexivity|].
    exact (append_cancel_right "Plugin" _ _ Heq). }
  rewrite Hafter. unfold Build.plugin.
  assert (Htest : jsRegex_test (stem +:+ ".js") = true)
    by (apply jsRegex_test_spec; exists stem; reflexivity).
  rewrite Htest. cbn [negb]. rewrite jsRegex_remove_suffix.
  rewrite lookup_set_prop_same. unfold Build.PLUGIN_DIR.
  rewrite !append_associative. reflexivity.
Qed.

End Targets.

(** *** The build targets on sample listings *)

Lemma browserify_skips_other_files_witness :
  Build.browserify "/app" (VStr "production") (fun s => s)
    ["proxy.js"; "README.js.md"; "gist.js"]
  = Build.browserify "/app" (VStr "production") (fun s => s)
      ["proxy.js"; "gist.js"].
Proof.
  apply (browserify_skips_other_files "/app" (VStr "production") (fun s => s)
           ["proxy.js"] ["gist.js"] "README.js.md").
  intros stem Hstem.
  assert (Htest : Build.jsRegex_test "README.js.md" = true)
    by (apply jsRegex_test_spec; exists stem; exact Hstem).
  vm_compute in Htest. discriminate Htest.
Defined.

Lemma browserify_builds_plugin_file_witness :
  lookup_prop "gistPlugin"
    (Build.browserify "/app" (VStr "production") (fun s => s)
       ["gist.js"; "proxy.js"; "gist.js"])
  = VObj [("src", VStr "/app/public/scripts/plugins/gist.js");
          ("dest", VStr "build/plugins/gist.js");
          ("options",
           VObj [("debug", VBool false);
                 ("transform", VArr [VStr "envify"; VStr "uglifyify"]);
                 ("standalone", VStr "gistPlugin")])].
Proof.
  apply (browserify_builds_plugin_file "/app" (VStr "production") (fun s => s)
           ["gist.js"; "proxy.js"] [] "gist").
  intros stem' [].
Defined.

Lemma browserify_targets_share_options_witness :
  List.Forall
    (target_options (VBool false) (VArr [VStr "envify"; VStr "uglifyify"]))
    (Build.browserify "/app" (VStr "production") (fun s => s)
       ["gist.js"; "proxy.js"]).
Proof.
  destruct (browserify_targets_share_options "/app" (VStr "production")
              (fun s => s) ["gist.js"; "proxy.js"]) as [H _].
  apply H. reflexivity.
Defined.

(** ** The load handler and the handler contract *)

(** X18: the load handler keeps the contract of a handler whenever its read
    completes.  With no identifier, or with an identifier and a read whose
    completion is called, whatever it is called with, the handler calls
    exactly one of the continue and terminate operations, exactly once, and
    no exception escapes it. *)
Theorem load_calls_one_operation (env : environment) (d : payload) :
  (truthy (id d) = true -> respond env "ajax" (load_request d) <> None) ->
  calls (snd (run (loadPlugin env) d)) = 1%nat /\
  existsb is_uncaught (snd (run (loadPlugin env) d)) = false.
Proof.
  intros Hcompletes. run_handler. unfold not.
  destruct (truthy (id d)) eqn:Hid; cbn; [|split; reflexivity].
  change (VObj _) with (load_request d).
  destruct (respond env "ajax" (load_request d)) as [[err xhr]|];
    [|exfalso; exact (Hcompletes eq_refl eq_refl)].
  cbn. clear Hcompletes.
  repeat case_step; try solve [impossible_read]; split; reflexivity.
Qed.

Lemma load_calls_one_operation_witness :
  calls (snd (run (loadPlugin (online (Some (Error "Network error", VUndefined))))
                (notebook (VStr "g0") true))) = 1%nat /\
  existsb is_uncaught
    (snd (run (loadPlugin (online (Some (Error "Network error", VUndefined))))
            (notebook (VStr "g0") true))) = false.
Proof.
  apply (load_calls_one_operation
           (online (Some (Error "Network error", VUndefined)))
           (notebook (VStr "g0") true)).
  intros _. discriminate.
Defined.


